(** * OmniPDF: the document session of the PDF workspace

    A shallow embedding of the session logic of the application
    (the [App] component, [services/pdfService.ts] and
    [services/geminiService.ts]) together with the properties of the
    session that the specification states.

    Conventions of the embedding.
    - A JavaScript string is a [string]: a sequence of code units.  Case
      mapping and white space are those of ASCII; code units above 127 are
      carried along unchanged.
    - A JavaScript number that only ever holds an integer ([currentPage],
      [numPages], an index) is a [Z]; the zoom factor is a binary64
      [float], as in the program.
    - A React state cell is a field of the record [App]; a setter called
      with a value overwrites the field, a setter called with an updater
      function applies it to the field as it is when the update runs.
    - An [async] handler runs up to its first [await] when the event
      fires; what follows the [await] is a pending task of the event loop
      that resumes in a later step, closed over the values the handler
      had captured. *)

From Stdlib Require Import Bool Arith ZArith Lia List Ascii String.
From Stdlib Require Import Numbers.DecimalString.
From Stdlib Require Numbers.DecimalNat.
From Stdlib Require Import Floats.PrimFloat.
Import ListNotations.

#[local] Set Warnings "-inexact-float,-abstract-large-number".

Local Open Scope list_scope.
Local Open Scope string_scope.

(** ** JavaScript values used by the program *)

Module JS.

(** The double quote, for string literals that contain one. *)
Definition dq : string := String (ascii_of_nat 34) EmptyString.

(** Line feed, the [\n] of a string literal. *)
Definition nl : string := String (ascii_of_nat 10) EmptyString.

(** Truthiness of a string: only the empty string is falsy. *)
Definition truthy (s : string) : bool :=
  match s with
  | EmptyString => false
  | String _ _ => true
  end.

(** [a || b] on strings. *)
Definition or_else (a b : string) : string :=
  if truthy a then a else b.

(** White space as [String.prototype.trim] sees it (ASCII part):
    TAB, LF, VT, FF, CR and SPACE. *)
Definition isWhiteSpace (c : ascii) : bool :=
  let n := nat_of_ascii c in
  ((9 <=? n)%nat && (n <=? 13)%nat) || (n =? 32)%nat.

Fixpoint trimStart (s : string) : string :=
  match s with
  | EmptyString => EmptyString
  | String c r => if isWhiteSpace c then trimStart r else s
  end.

Fixpoint trimEnd (s : string) : string :=
  match s with
  | EmptyString => EmptyString
  | String c r =>
      match trimEnd r with
      | EmptyString => if isWhiteSpace c then EmptyString else String c EmptyString
      | r' => String c r'
      end
  end.

Definition trim (s : string) : string := trimEnd (trimStart s).

(** [String.prototype.toLowerCase] on ASCII letters. *)
Definition lowerChar (c : ascii) : ascii :=
  let n := nat_of_ascii c in
  if (65 <=? n)%nat && (n <=? 90)%nat then ascii_of_nat (n + 32) else c.

Fixpoint toLowerCase (s : string) : string :=
  match s with
  | EmptyString => EmptyString
  | String c r => String (lowerChar c) (toLowerCase r)
  end.

(** [s.includes(sub)]: [sub] occurs in [s] at some position. *)
Fixpoint includes (s sub : string) : bool :=
  if String.prefix sub s then true
  else match s with
       | EmptyString => false
       | String _ r => includes r sub
       end.

(** [s.substring(0, n)]. *)
Definition substring0 (n : nat) (s : string) : string :=
  String.substring 0 n s.

(** [items.join(sep)]. *)
Definition join (sep : string) (items : list string) : string :=
  String.concat sep items.

(** A natural number interpolated into a template literal. *)
Definition numberToString (n : nat) : string :=
  NilEmpty.string_of_uint (Nat.to_uint n).

(** [array.findIndex(p)], with [-1] when no element satisfies [p]. *)
Fixpoint findIndexFrom {A : Type} (p : A -> bool) (l : list A) (i : Z) : Z :=
  match l with
  | [] => (-1)%Z
  | x :: r => if p x then i else findIndexFrom p r (i + 1)%Z
  end.

Definition findIndex {A : Type} (p : A -> bool) (l : list A) : Z :=
  findIndexFrom p l 0%Z.

(** The result of [parseInt]: an integer or [NaN]. *)
Inductive number : Type :=
| NaN : number
| Int : Z -> number.

Definition digitValue (radix : nat) (c : ascii) : option nat :=
  let n := nat_of_ascii c in
  let v :=
    if (48 <=? n)%nat && (n <=? 57)%nat then Some (n - 48)
    else if (97 <=? n)%nat && (n <=? 122)%nat then Some (n - 87)
    else if (65 <=? n)%nat && (n <=? 90)%nat then Some (n - 55)
    else None in
  match v with
  | Some d => if (d <? radix)%nat then Some d else None
  | None => None
  end.

(** The longest run of digits at the head of [s], accumulated in [acc];
    [seen] tells whether a digit was read. *)
Fixpoint parseDigits (radix : nat) (s : string) (acc : Z) (seen : bool) : option Z :=
  match s with
  | EmptyString => if seen then Some acc else None
  | String c r =>
      match digitValue radix c with
      | Some d => parseDigits radix r (acc * Z.of_nat radix + Z.of_nat d)%Z true
      | None => if seen then Some acc else None
      end
  end.

(** [parseInt(s)] without a radix: leading white space is skipped, a sign
    is read, a [0x] or [0X] prefix selects radix 16, and the digits that
    follow are read up to the first character that is not a digit. *)
Definition parseInt (s : string) : number :=
  let s1 := trimStart s in
  let '(neg, s2) :=
    match s1 with
    | String "-" r => (true, r)
    | String "+" r => (false, r)
    | _ => (false, s1)
    end in
  let '(radix, s3) :=
    match s2 with
    | String "0" (String "x" r) => (16, r)
    | String "0" (String "X" r) => (16, r)
    | _ => (10, s2)
    end in
  match parseDigits radix s3 0%Z false with
  | Some z => Int (if neg then (- z)%Z else z)
  | None => NaN
  end.

(** [val >= lo && val <= hi]; a comparison with [NaN] is false. *)
Definition inRange (val : number) (lo hi : Z) : bool :=
  match val with
  | NaN => false
  | Int z => (lo <=? z)%Z && (z <=? hi)%Z
  end.

(** [Math.max] and [Math.min] on binary64 numbers. *)
Definition Math_max (a b : float) : float :=
  if PrimFloat.is_nan a || PrimFloat.is_nan b then PrimFloat.nan
  else if PrimFloat.ltb a b then b
  else if PrimFloat.ltb b a then a
  else if PrimFloat.get_sign a then b else a.

Definition Math_min (a b : float) : float :=
  if PrimFloat.is_nan a || PrimFloat.is_nan b then PrimFloat.nan
  else if PrimFloat.ltb a b then a
  else if PrimFloat.ltb b a then b
  else if PrimFloat.get_sign a then a else b.

End JS.

(** The way an awaited call ends: it resolves with a value or rejects
    with an error; [message] is the error's [message], empty when the
    error carries none. *)
Inductive outcome (A : Type) : Type :=
| Resolved (value : A)
| Rejected (message : string).

Arguments Resolved {A} value.
Arguments Rejected {A} message.

(** ** types.ts *)

Inductive Role : Type := user | assistant.

Record ChatMessage : Type := mkChatMessage {
  role : Role;
  content : string
}.

Record EditAction : Type := mkEditAction {
  id : string;
  label : string;
  description : string;
  prompt : string;
  icon : string
}.

(** ** services/pdfService.ts *)

Module PdfService.

(** What pdf.js yields for one page: the [str] of every item of its text
    content, or a rejection of [getPage] or [getTextContent]. *)
Definition Page : Type := outcome (list string).

(** A document opened by [pdfjsLib.getDocument]: its pages in order;
    [numPages] is their number. *)
Definition PdfDoc : Type := list Page.

(** A file picked by the user: its name and MIME type, the object URL the
    browser hands out for it, and what [pdfjsLib.getDocument] makes of its
    bytes. *)
Record File : Type := mkFile {
  name : string;
  type : string;
  objectURL : string;
  getDocument : outcome PdfDoc
}.

Record ExtractedData : Type := mkExtractedData {
  fullText : string;
  pageTexts : list string;
  numPages : Z
}.

(** The text appended to [fullText] for page [i]. *)
Definition pageBlock (i : nat) (pageText : string) : string :=
  "--- Page " ++ JS.numberToString i ++ " ---" ++ JS.nl ++ pageText ++ JS.nl ++ JS.nl.

(** The [for] loop of [extractTextFromPDF]: [pages] are the pages from
    page [i] on, [fullText] and [pageTexts] the variables of the loop. *)
Fixpoint extractLoop (pages : list Page) (i : nat)
    (fullText : string) (pageTexts : list string) : outcome (string * list string) :=
  match pages with
  | [] => Resolved (fullText, pageTexts)
  | page :: rest =>
      match page with
      | Rejected m => Rejected m
      | Resolved items =>
          let pageText := JS.join " " items in
          extractLoop rest (S i) (fullText ++ pageBlock i pageText) (pageTexts ++ [pageText])%list
      end
  end.

Definition extractTextFromPDF (file : File) : outcome ExtractedData :=
  match getDocument file with
  | Rejected m => Rejected m
  | Resolved pdf =>
      match extractLoop pdf 1 "" [] with
      | Rejected m => Rejected m
      | Resolved (fullText, pageTexts) =>
          Resolved (mkExtractedData fullText pageTexts (Z.of_nat (List.length pdf)))
      end
  end.

End PdfService.

(** ** services/geminiService.ts *)

Module GeminiService.

Record GenerateContentRequest : Type := mkGenerateContentRequest {
  gc_model : string;
  contents : string
}.

Record ChatRequest : Type := mkChatRequest {
  chat_model : string;
  systemInstruction : string;
  message : string
}.

(** The world outside the program: the [API_KEY] of the process
    environment ([None] when it is not set) and the answers of the
    provider.  A resolved answer is the [text] of the response, empty
    when the response has none. *)
Record Env : Type := mkEnv {
  API_KEY : option string;
  generateContent : string -> GenerateContentRequest -> outcome string;
  sendMessage : string -> ChatRequest -> outcome string
}.

(** [getAIClient]: the client is identified by its key. *)
Definition getAIClient (env : Env) : outcome string :=
  match API_KEY env with
  | None => Rejected "API Key is missing"
  | Some k => if JS.truthy k then Resolved k else Rejected "API Key is missing"
  end.

Definition model : string := "gemini-3-pro-preview".

Definition promptHead : string :=
  JS.nl ++ "    You are a professional document editor and analyst."
  ++ JS.nl ++ "    Below is the content of a PDF document:"
  ++ JS.nl ++ "    --- DOCUMENT START ---"
  ++ JS.nl ++ "    ".

Definition promptTail (actionPrompt context : string) : string :=
  " // Truncate if too long for safety"
  ++ JS.nl ++ "    --- DOCUMENT END ---"
  ++ JS.nl
  ++ JS.nl ++ "    Instruction: " ++ actionPrompt
  ++ JS.nl ++ "    "
  ++ (if JS.truthy context then "Additional Context/User Input: " ++ context else "")
  ++ JS.nl
  ++ JS.nl ++ "    Please provide a high-quality response. If the request is to "
  ++ JS.dq ++ "rewrite" ++ JS.dq ++ ", " ++ JS.dq ++ "summarize" ++ JS.dq ++ ", or "
  ++ JS.dq ++ "transform" ++ JS.dq ++ ", provide the new content clearly."
  ++ JS.nl ++ "  ".

(** The request [processDocumentAction] sends. *)
Definition actionRequest (docText actionPrompt context : string) : GenerateContentRequest :=
  let prompt :=
    promptHead ++ JS.substring0 15000 docText ++ promptTail actionPrompt context in
  mkGenerateContentRequest model prompt.

Definition processDocumentAction (env : Env)
    (docText actionPrompt context : string) : outcome string :=
  match getAIClient env with
  | Rejected m => Rejected m
  | Resolved ai =>
      match generateContent env ai (actionRequest docText actionPrompt context) with
      | Resolved text =>
          Resolved (JS.or_else text "I couldn't process the request. Please try again.")
      | Rejected msg =>
          Resolved ("Error: " ++ JS.or_else msg "Failed to communicate with AI")
      end
  end.

Definition instructionHead : string :=
  JS.nl ++ "    You are OmniPDF Assistant. You have full access to the document text provided below."
  ++ JS.nl ++ "    Answer questions based ONLY on the document content where possible."
  ++ JS.nl ++ "    If the information is not in the document, state that clearly but try to be helpful."
  ++ JS.nl ++ "    Document content:"
  ++ JS.nl ++ "    ".

Definition instructionTail : string := JS.nl ++ "  ".

(** The request [chatWithDocument] sends; [history] is a parameter of the
    function and is not read. *)
Definition chatRequest (docText : string) (history : list ChatMessage)
    (userMessage : string) : ChatRequest :=
  let systemInstruction :=
    instructionHead ++ JS.substring0 20000 docText ++ instructionTail in
  mkChatRequest model systemInstruction userMessage.

Definition chatWithDocument (env : Env) (docText : string)
    (history : list ChatMessage) (userMessage : string) : outcome string :=
  match getAIClient env with
  | Rejected m => Rejected m
  | Resolved ai =>
      match sendMessage env ai (chatRequest docText history userMessage) with
      | Resolved text => Resolved (JS.or_else text "No response received.")
      | Rejected _ => Resolved "Something went wrong during the conversation."
      end
  end.

End GeminiService.

(** ** The [App] component *)

Module App.

Import PdfService GeminiService.

Inductive Tab : Type := view | edit | chat.

Record PDFState : Type := mkPDFState {
  file : option File;
  url : option string;
  text : string;
  pageTexts : list string;
  numPages : Z;
  isProcessing : bool;
  error : option string
}.

(** The state cells and refs of the component.  Rasterisation of the
    current page ([renderPage] and the effect that calls it) writes only
    the canvas and the [isRendering] flag, which nothing else reads; it
    is left out. *)
Record App : Type := mkApp {
  pdfState : PDFState;
  activeTab : Tab;
  chatHistory : list ChatMessage;
  userInput : string;
  editedContent : string;
  isAiLoading : bool;
  zoom : float;
  currentPage : Z;
  searchQuery : string;
  pdfDocRef : option PdfDoc
}.

Definition emptyPdfState : PDFState :=
  mkPDFState None None "" [] 0%Z false None.

(** The state of the first render. *)
Definition initial : App :=
  mkApp emptyPdfState view [] "" "" false 1%float 1%Z "" None.

(** *** Setters *)

Definition setPdfState (f : PDFState -> PDFState) (s : App) : App :=
  mkApp (f (pdfState s)) (activeTab s) (chatHistory s) (userInput s) (editedContent s)
        (isAiLoading s) (zoom s) (currentPage s) (searchQuery s) (pdfDocRef s).

Definition setActiveTab (t : Tab) (s : App) : App :=
  mkApp (pdfState s) t (chatHistory s) (userInput s) (editedContent s)
        (isAiLoading s) (zoom s) (currentPage s) (searchQuery s) (pdfDocRef s).

Definition setChatHistory (f : list ChatMessage -> list ChatMessage) (s : App) : App :=
  mkApp (pdfState s) (activeTab s) (f (chatHistory s)) (userInput s) (editedContent s)
        (isAiLoading s) (zoom s) (currentPage s) (searchQuery s) (pdfDocRef s).

Definition setUserInput (v : string) (s : App) : App :=
  mkApp (pdfState s) (activeTab s) (chatHistory s) v (editedContent s)
        (isAiLoading s) (zoom s) (currentPage s) (searchQuery s) (pdfDocRef s).

Definition setEditedContent (v : string) (s : App) : App :=
  mkApp (pdfState s) (activeTab s) (chatHistory s) (userInput s) v
        (isAiLoading s) (zoom s) (currentPage s) (searchQuery s) (pdfDocRef s).

Definition setIsAiLoading (v : bool) (s : App) : App :=
  mkApp (pdfState s) (activeTab s) (chatHistory s) (userInput s) (editedContent s)
        v (zoom s) (currentPage s) (searchQuery s) (pdfDocRef s).

Definition setZoom (f : float -> float) (s : App) : App :=
  mkApp (pdfState s) (activeTab s) (chatHistory s) (userInput s) (editedContent s)
        (isAiLoading s) (f (zoom s)) (currentPage s) (searchQuery s) (pdfDocRef s).

Definition setCurrentPage (f : Z -> Z) (s : App) : App :=
  mkApp (pdfState s) (activeTab s) (chatHistory s) (userInput s) (editedContent s)
        (isAiLoading s) (zoom s) (f (currentPage s)) (searchQuery s) (pdfDocRef s).

Definition setSearchQuery (v : string) (s : App) : App :=
  mkApp (pdfState s) (activeTab s) (chatHistory s) (userInput s) (editedContent s)
        (isAiLoading s) (zoom s) (currentPage s) v (pdfDocRef s).

Definition setPdfDocRef (v : option PdfDoc) (s : App) : App :=
  mkApp (pdfState s) (activeTab s) (chatHistory s) (userInput s) (editedContent s)
        (isAiLoading s) (zoom s) (currentPage s) (searchQuery s) v.

(** *** Suspended handlers *)

(** A handler suspended at an [await], with the values it captured. *)
Inductive Task : Type :=
| AwaitGetDocument (file : File)
    (* [handleFileUpload] at [await pdfjsLib.getDocument(...).promise] *)
| AwaitExtract (file : File)
    (* [handleFileUpload] at [await extractTextFromPDF(file)] *)
| AwaitAction (docText actionPrompt : string)
    (* [handleAction] at [await processDocumentAction(...)] *)
| AwaitChat (docText : string) (history : list ChatMessage) (userMessage : string).
    (* [handleSendMessage] at [await chatWithDocument(...)] *)

(** The component together with the handlers that are in flight. *)
Record World : Type := mkWorld {
  app : App;
  pending : list Task
}.

Definition start : World := mkWorld initial [].

Definition suspend (t : Task) (w : World) : World :=
  mkWorld (app w) (pending w ++ [t])%list.

Definition update (f : App -> App) (w : World) : World :=
  mkWorld (f (app w)) (pending w).

(** *** Handlers *)

Definition uploadFailed (prev : PDFState) : PDFState :=
  mkPDFState (file prev) (url prev) (text prev) (pageTexts prev) (numPages prev)
             false (Some "Failed to extract text from PDF.").

Definition uploadRejected (prev : PDFState) : PDFState :=
  mkPDFState (file prev) (url prev) (text prev) (pageTexts prev) (numPages prev)
             (isProcessing prev) (Some "Please upload a valid PDF file.").

Definition uploadStarted (f : File) : PDFState :=
  mkPDFState (Some f) (Some (objectURL f)) "" [] 0%Z true None.

Definition uploadExtracted (d : ExtractedData) (prev : PDFState) : PDFState :=
  mkPDFState (file prev) (url prev) (PdfService.fullText d) (PdfService.pageTexts d)
             (PdfService.numPages d) false (error prev).

(** [handleFileUpload] up to its first [await]; [files0] is
    [event.target.files?.[0]]. *)
Definition handleFileUpload (files0 : option File) (w : World) : World :=
  match files0 with
  | None => update (setPdfState uploadRejected) w
  | Some f =>
      if negb (String.eqb (type f) "application/pdf")
      then update (setPdfState uploadRejected) w
      else suspend (AwaitGetDocument f)
             (update (setPdfState (fun _ => uploadStarted f)) w)
  end.

(** [handleSearch]. *)
Definition handleSearch (s : App) : App :=
  if negb (JS.truthy (JS.trim (searchQuery s))) then s
  else
    let lowerQuery := JS.toLowerCase (searchQuery s) in
    let foundPageIndex :=
      JS.findIndex (fun t => JS.includes (JS.toLowerCase t) lowerQuery)
                   (pageTexts (pdfState s)) in
    if negb (Z.eqb foundPageIndex (-1))
    then setCurrentPage (fun _ => foundPageIndex + 1)%Z s
    else s.

(** [handleAction] up to its [await]. *)
Definition handleAction (action : EditAction) (w : World) : World :=
  if negb (JS.truthy (text (pdfState (app w)))) then w
  else
    suspend (AwaitAction (text (pdfState (app w))) (prompt action))
      (update (fun s => setActiveTab edit (setIsAiLoading true s)) w).

(** [handleSendMessage] up to its [await]. *)
Definition handleSendMessage (w : World) : World :=
  let s := app w in
  if negb (JS.truthy (JS.trim (userInput s)))
     || negb (JS.truthy (text (pdfState s)))
     || isAiLoading s
  then w
  else
    let userMsg := mkChatMessage user (userInput s) in
    suspend (AwaitChat (text (pdfState s)) (chatHistory s) (userInput s))
      (update (fun s =>
                 setIsAiLoading true
                   (setUserInput ""
                      (setChatHistory (fun prev => prev ++ [userMsg])%list s))) w).

(** The click on the close button. *)
Definition close (s : App) : App :=
  setPdfState (fun _ => emptyPdfState) (setPdfDocRef None s).

(** The zoom buttons. *)
Definition zoomOut (s : App) : App :=
  setZoom (fun prev => JS.Math_max 0.5%float (PrimFloat.sub prev 0.1%float)) s.

Definition zoomIn (s : App) : App :=
  setZoom (fun prev => JS.Math_min 3%float (PrimFloat.add prev 0.1%float)) s.

Definition zoomReset (s : App) : App :=
  setZoom (fun _ => 1%float) s.

(** The page buttons and the page number field. *)
Definition prevPage (s : App) : App :=
  setCurrentPage (fun prev => Z.max 1 (prev - 1)) s.

Definition nextPage (s : App) : App :=
  setCurrentPage (fun prev => Z.min (numPages (pdfState s)) (prev + 1)) s.

Definition pageInputChange (value : string) (s : App) : App :=
  let val := JS.parseInt value in
  if JS.inRange val 1 (numPages (pdfState s))
  then match val with
       | JS.Int z => setCurrentPage (fun _ => z) s
       | JS.NaN => s
       end
  else s.

(** *** The event loop *)

Section EventLoop.

Variable env : Env.

(** What a suspended handler does when its [await] settles. *)
Definition resume (t : Task) (w : World) : World :=
  match t with
  | AwaitGetDocument f =>
      match getDocument f with
      | Rejected _ => update (setPdfState uploadFailed) w
      | Resolved doc => suspend (AwaitExtract f) (update (setPdfDocRef (Some doc)) w)
      end
  | AwaitExtract f =>
      match extractTextFromPDF f with
      | Rejected _ => update (setPdfState uploadFailed) w
      | Resolved d =>
          update (fun s => setCurrentPage (fun _ => 1%Z) (setPdfState (uploadExtracted d) s)) w
      end
  | AwaitAction docText actionPrompt =>
      match processDocumentAction env docText actionPrompt "" with
      | Resolved result =>
          update (fun s => setIsAiLoading false (setEditedContent result s)) w
      | Rejected _ => update (setIsAiLoading false) w
      end
  | AwaitChat docText history userMessage =>
      match chatWithDocument env docText history userMessage with
      | Resolved aiResponse =>
          update (fun s =>
                    setIsAiLoading false
                      (setChatHistory
                         (fun prev => prev ++ [mkChatMessage assistant aiResponse])%list s)) w
      | Rejected _ =>
          update (fun s =>
                    setIsAiLoading false
                      (setChatHistory
                         (fun prev =>
                            prev ++ [mkChatMessage assistant "Sorry, I failed to process that."])%list
                         s)) w
      end
  end.

(** The [i]-th pending task leaves the queue. *)
Fixpoint removeNth {A : Type} (i : nat) (l : list A) : list A :=
  match i, l with
  | _, [] => []
  | O, _ :: r => r
  | S j, x :: r => x :: removeNth j r
  end.

Definition settle (i : nat) (w : World) : World :=
  match nth_error (pending w) i with
  | None => w
  | Some t => resume t (mkWorld (app w) (removeNth i (pending w)))
  end.

(** What can happen to the component: the user acts on a control, or a
    pending [await] settles. *)
Inductive Event : Type :=
| FileSelected (files0 : option File)
| CloseClicked
| TabClicked (t : Tab)
| ActionClicked (a : EditAction)
| ZoomOutClicked
| ZoomInClicked
| ZoomResetClicked
| PrevPageClicked
| NextPageClicked
| PageInputChanged (value : string)
| SearchQueryChanged (value : string)
| SearchSubmitted
| UserInputChanged (value : string)
| MessageSubmitted
| Settled (i : nat).

Definition isSome {A : Type} (o : option A) : bool :=
  match o with Some _ => true | None => false end.

Definition tabIs (t : Tab) (s : App) : bool :=
  match t, activeTab s with
  | view, view | edit, edit | chat, chat => true
  | _, _ => false
  end.

(** Whether the control of an event is on screen and enabled: the file
    input belongs to the screen shown while [pdfState.file] is null, all
    other controls to the workspace; the viewer toolbar is shown on the
    'view' tab and the chat form on the 'chat' tab. *)
Definition enabled (s : App) (e : Event) : bool :=
  let loaded := isSome (file (pdfState s)) in
  match e with
  | FileSelected _ => negb loaded
  | CloseClicked | TabClicked _ | ActionClicked _ => loaded
  | ZoomOutClicked | ZoomInClicked | ZoomResetClicked
  | PageInputChanged _ | SearchQueryChanged _ | SearchSubmitted =>
      loaded && tabIs view s
  | PrevPageClicked =>
      loaded && tabIs view s && negb (Z.eqb (currentPage s) 1)
  | NextPageClicked =>
      loaded && tabIs view s && negb (Z.eqb (currentPage s) (numPages (pdfState s)))
  | UserInputChanged _ | MessageSubmitted => loaded && tabIs chat s
  | Settled _ => true
  end.

(** The handler of an event. *)
Definition handle (e : Event) (w : World) : World :=
  match e with
  | FileSelected files0 => handleFileUpload files0 w
  | CloseClicked => update close w
  | TabClicked t => update (setActiveTab t) w
  | ActionClicked a => handleAction a w
  | ZoomOutClicked => update zoomOut w
  | ZoomInClicked => update zoomIn w
  | ZoomResetClicked => update zoomReset w
  | PrevPageClicked => update prevPage w
  | NextPageClicked => update nextPage w
  | PageInputChanged v => update (pageInputChange v) w
  | SearchQueryChanged v => update (setSearchQuery v) w
  | SearchSubmitted => update handleSearch w
  | UserInputChanged v => update (setUserInput v) w
  | MessageSubmitted => handleSendMessage w
  | Settled i => settle i w
  end.

Definition step (w : World) (e : Event) : World :=
  if enabled (app w) e then handle e w else w.

Definition run (w : World) (trace : list Event) : World :=
  fold_left step trace w.

End EventLoop.

(** *** The session status of the specification

    The program keeps no status of its own; the status is read off
    [pdfState] the way the component renders it: the upload screen while
    [file] is null, the processing overlay while [isProcessing], the
    error once one was recorded. *)
Inductive Status : Type := Empty | Loading | Ready | Failed.

Definition status (p : PDFState) : Status :=
  match file p with
  | None => Empty
  | Some _ =>
      if isProcessing p then Loading
      else match error p with
           | Some _ => Failed
           | None => Ready
           end
  end.

End App.

(** ** Notions of the specification *)

Module Spec.

Import PdfService App.

(** [sub] occurs in [s]. *)
Definition occursIn (sub s : string) : Prop :=
  exists pre post, s = pre ++ sub ++ post.



(** The ordered join of the page texts with the page separators: every
    page, from page [i] on, under its [--- Page i ---] heading and
    followed by an empty line. *)
Fixpoint joinPagesFrom (i : nat) (pageTexts : list string) : string :=
  match pageTexts with
  | [] => ""
  | t :: rest => pageBlock i t ++ joinPagesFrom (S i) rest
  end.

Definition joinPages (pageTexts : list string) : string :=
  joinPagesFrom 1 pageTexts.

(** The document data of the session is coherent: one text per page, and
    the full text is the join of the page texts. *)
Definition coherent (p : PDFState) : Prop :=
  Z.of_nat (List.length (pageTexts p)) = numPages p
  /\ text p = joinPages (pageTexts p).

(** A selection the upload guard turns down: no file, or a file whose
    type is not the PDF type. *)
Definition notPdf (files0 : option File) : Prop :=
  match files0 with
  | None => True
  | Some f => type f <> "application/pdf"
  end.


End Spec.

(** ** Sample data *)

Module Sample.

Import PdfService GeminiService App.

(** A three-page document. *)
Definition fruitDoc : PdfDoc :=
  [Resolved ["apple"; "pie"]; Resolved ["banana"; "split"]; Resolved ["cherry tart"]].

Definition fruitFile : File :=
  mkFile "fruit.pdf" "application/pdf" "blob:fruit" (Resolved fruitDoc).

Definition reportFile : File :=
  mkFile "report.pdf" "application/pdf" "blob:report"
         (Resolved [Resolved ["Q1"; "Revenue"]; Resolved ["Summary"]]).

Definition notesFile : File :=
  mkFile "notes.txt" "text/plain" "blob:notes" (Rejected "Invalid PDF structure").

Definition summarize : EditAction :=
  mkEditAction "summarize" "Summarize" "Create a concise summary of the document."
    "Summarize the core points of this document in bullet points." "Layout".

Definition translate : EditAction :=
  mkEditAction "translate-es" "Translate (ES)" "Translate the main content to Spanish."
    "Translate the main content of this document into professional Spanish."
    "ChevronRight".

(** A provider that answers every request. *)
Definition helpful : Env :=
  mkEnv (Some "key")
        (fun _ _ => Resolved "- three fruit desserts")
        (fun _ r => Resolved ("You asked: " ++ message r)).

(** A provider that summarises but whose other transformations fail. *)
Definition flaky : Env :=
  mkEnv (Some "key")
        (fun _ r => if JS.includes (contents r) "Summarize"
                    then Resolved "- three fruit desserts"
                    else Rejected "quota exceeded")
        (fun _ _ => Rejected "quota exceeded").

(** An environment without an API key. *)
Definition keyless : Env :=
  mkEnv None (fun _ _ => Resolved "unused") (fun _ _ => Resolved "unused").

(** A PDF whose second page cannot be read, and a PDF that does not
    open. *)
Definition brokenFile : File :=
  mkFile "broken.pdf" "application/pdf" "blob:broken"
         (Resolved [Resolved ["intact"]; Rejected "bad page"]).

Definition corruptFile : File :=
  mkFile "corrupt.pdf" "application/pdf" "blob:corrupt"
         (Rejected "Invalid PDF structure").

(** An environment whose API key is the empty string. *)
Definition emptyKey : Env :=
  mkEnv (Some "") (fun _ _ => Resolved "unused") (fun _ _ => Resolved "unused").

(** A text of [n] letters followed by [tail]. *)
Fixpoint filler (n : nat) (tail : string) : string :=
  match n with
  | O => tail
  | S k => String "a" (filler k tail)
  end.

(** Upload of the fruit document, carried through to the end. *)
Definition loadFruit : list Event :=
  [FileSelected (Some fruitFile); Settled 0; Settled 0].

(** A working session on the fruit document: page 2, zoomed in once, a
    summary drafted and one question asked. *)
Definition workSession : list Event :=
  loadFruit ++
  [PageInputChanged "2"; ZoomInClicked;
   ActionClicked summarize; Settled 0;
   TabClicked chat; UserInputChanged "hi"; MessageSubmitted; Settled 0]%list.

End Sample.

(** ** Observations on the session *)

Module Session.

Import PdfService GeminiService App.

(** The kinds of suspended handlers. *)
Definition isUploadTask (t : Task) : bool :=
  match t with
  | AwaitGetDocument _ | AwaitExtract _ => true
  | AwaitAction _ _ | AwaitChat _ _ _ => false
  end.

Definition isAiTask (t : Task) : bool :=
  match t with
  | AwaitAction _ _ | AwaitChat _ _ _ => true
  | AwaitGetDocument _ | AwaitExtract _ => false
  end.

Definition isChatTask (t : Task) : bool :=
  match t with
  | AwaitChat _ _ _ => true
  | _ => false
  end.

(** The number of suspended handlers of a kind. *)
Definition inFlight (kind : Task -> bool) (w : World) : nat :=
  List.length (filter kind (pending w)).

Definition isFrom (r : Role) (m : ChatMessage) : bool :=
  match r, role m with
  | user, user | assistant, assistant => true
  | _, _ => false
  end.

(** The number of messages of a role in a transcript. *)
Definition messagesFrom (r : Role) (transcript : list ChatMessage) : nat :=
  List.length (filter (isFrom r) transcript).

(** The zoom factors the three zoom buttons produce from the initial
    factor: the closure of 1.0 under one step in, one step out and the
    reset, found by a work list. *)
Definition knownZoom (z : float) (seen : list float) : bool :=
  existsb (PrimFloat.Leibniz.eqb z) seen.

Fixpoint zoomClosure (fuel : nat) (todo seen : list float) : list float :=
  match fuel with
  | O => seen
  | S k =>
      match todo with
      | [] => seen
      | z :: rest =>
          if knownZoom z seen then zoomClosure k rest seen
          else zoomClosure k
                 (JS.Math_min 3%float (PrimFloat.add z 0.1%float)
                  :: JS.Math_max 0.5%float (PrimFloat.sub z 0.1%float) :: rest)
                 (z :: seen)
      end
  end.

Definition zoomLevels : list float :=
  Eval vm_compute in zoomClosure 1000 [1%float] [].

(** The current page is a page of the document whenever the document
    has pages, and is never negative. *)
Definition validPage (s : App) : Prop :=
  (0 <= currentPage s)%Z
  /\ ((0 < numPages (pdfState s))%Z ->
      (1 <= currentPage s <= numPages (pdfState s))%Z).

(** A file that opens as a document all of whose pages yield their text
    items. *)
Definition readable (f : File) (items : list (list string)) : Prop :=
  getDocument f = Resolved (map Resolved items).

(** What the session maintains, whatever happens:
    the document data is coherent, the current page is valid, the zoom
    factor is one of the zoom levels, a raised busy flag has a call in
    flight that will lower it, a raised processing flag has a file and an
    upload in flight, every user message has its reply or a chat call in
    flight, and the URL is the object URL of the file. *)
Record invariant (w : World) : Prop := mkInvariant {
  inv_coherent : Spec.coherent (pdfState (app w));
  inv_page : validPage (app w);
  inv_zoom : In (zoom (app w)) zoomLevels;
  inv_busy : isAiLoading (app w) = true -> (0 < inFlight isAiTask w)%nat;
  inv_processing :
    isProcessing (pdfState (app w)) = true ->
    file (pdfState (app w)) <> None /\ (0 < inFlight isUploadTask w)%nat;
  inv_replies :
    messagesFrom user (chatHistory (app w))
    = (messagesFrom assistant (chatHistory (app w)) + inFlight isChatTask w)%nat;
  inv_url : url (pdfState (app w)) = option_map objectURL (file (pdfState (app w)))
}.

End Session.

(** ** Facts about the JavaScript operations *)

Module JSFacts.

Import Spec.

Lemma append_assoc (a b c : string) : (a ++ b) ++ c = a ++ b ++ c.
Proof. induction a as [|x a IH]; simpl; [reflexivity | now rewrite IH]. Qed.

Lemma append_nil_r (a : string) : a ++ "" = a.
Proof. induction a as [|x a IH]; simpl; [reflexivity | now rewrite IH]. Qed.







Lemma truthy_iff (s : string) : JS.truthy s = true <-> s <> "".
Proof. destruct s; simpl; split; congruence. Qed.



End JSFacts.

(** ** Text extraction *)

Module PdfFacts.

Import PdfService Spec JSFacts.

(** The loop adds one text per remaining page and extends the full text
    by the join of what it adds. *)
Lemma extractLoop_spec (pages : list Page) :
  forall i fullText pageTexts fullText' pageTexts',
    extractLoop pages i fullText pageTexts = Resolved (fullText', pageTexts') ->
    exists added,
      pageTexts' = (pageTexts ++ added)%list
      /\ fullText' = fullText ++ joinPagesFrom i added
      /\ List.length added = List.length pages.
Proof.
  induction pages as [|page rest IH]; intros i ft pts ft' pts' H; simpl in H.
  - injection H as <- <-. exists []. simpl.
    now rewrite app_nil_r, append_nil_r.
  - destruct page as [items | m]; [| discriminate].
    apply IH in H. destruct H as [added [Hp [Hf Hl]]].
    exists (JS.join " " items :: added). simpl. repeat split.
    + rewrite Hp, <- app_assoc. reflexivity.
    + rewrite Hf, append_assoc. reflexivity.
    + now rewrite Hl.
Qed.

(** The loop goes through when every page yields its text. *)
Lemma extractLoop_total (pages : list Page) :
  Forall (fun page => exists items, page = Resolved items) pages ->
  forall i fullText pageTexts,
    exists r, extractLoop pages i fullText pageTexts = Resolved r.
Proof.
  induction 1 as [|page rest [items ->] _ IH]; intros i ft pts; simpl.
  - now eexists.
  - apply IH.
Qed.

Lemma extractTextFromPDF_spec (f : File) (d : ExtractedData) :
  extractTextFromPDF f = Resolved d ->
  Z.of_nat (List.length (pageTexts d)) = numPages d
  /\ fullText d = joinPages (pageTexts d).
Proof.
  unfold extractTextFromPDF. destruct (getDocument f) as [pdf | m]; [| discriminate].
  destruct (extractLoop pdf 1 "" []) as [[ft pts] | m] eqn:E; [| discriminate].
  intros H; injection H as <-. simpl.
  apply extractLoop_spec in E. destruct E as [added [Hp [Hf Hl]]].
  simpl in Hp, Hf. subst. now rewrite Hl.
Qed.

(** The extraction resolves when the document opens and every page
    yields its text. *)
Lemma extractTextFromPDF_total (f : File) (pdf : PdfDoc) :
  getDocument f = Resolved pdf ->
  Forall (fun page => exists items, page = Resolved items) pdf ->
  exists d, extractTextFromPDF f = Resolved d.
Proof.
  intros Hdoc Hpages. unfold extractTextFromPDF. rewrite Hdoc.
  destruct (extractLoop_total pdf Hpages 1 "" []) as [[ft pts] E].
  rewrite E. now eexists.
Qed.

End PdfFacts.

(** ** The session *)

Module AppFacts.

Import PdfService GeminiService App Spec JSFacts PdfFacts.

Lemma nth_error_snoc {A : Type} (l : list A) (t : A) :
  nth_error (l ++ [t]) (List.length l) = Some t.
Proof. induction l; simpl; [reflexivity | assumption]. Qed.

Lemma removeNth_snoc {A : Type} (l : list A) (t : A) :
  removeNth (List.length l) (l ++ [t]) = l.
Proof. induction l as [|x l IH]; simpl; [reflexivity | now rewrite IH]. Qed.

(** Settling the task a handler has just suspended resumes it in the
    world the handler left. *)
Lemma settle_suspended (env : Env) (t : Task) (w : World) :
  settle env (List.length (pending w)) (suspend t w) = resume env t w.
Proof.
  unfold settle, suspend. simpl.
  rewrite nth_error_snoc, removeNth_snoc. now destruct w.
Qed.

Lemma coherent_empty : coherent emptyPdfState.
Proof. now split. Qed.

Lemma coherent_started (f : File) : coherent (uploadStarted f).
Proof. now split. Qed.





End AppFacts.

(** ** Properties of the session *)

Import PdfService GeminiService App Spec JSFacts PdfFacts AppFacts.

(** A binary64 number differs from a number [b] that is not [NaN] when
    [PrimFloat.eqb] tells them apart. *)
Lemma float_neq (a b : float) :
  PrimFloat.eqb a b = false -> PrimFloat.eqb b b = true -> a <> b.
Proof. intros H1 H2 E. subst a. congruence. Qed.

(** C1, as stated, fails: after a working session on one document and its
    close, selecting a new PDF leaves the page number, the zoom factor,
    the draft and the chat transcript of the old session in place while
    the new extraction is pending. *)
Lemma upload_keeps_viewer_draft_and_chat :
  let before := run Sample.helpful start (Sample.workSession ++ [CloseClicked]) in
  let after := step Sample.helpful before (FileSelected (Some Sample.reportFile)) in
  pending after = [AwaitGetDocument Sample.reportFile]
  /\ currentPage (app after) <> 1%Z
  /\ zoom (app after) <> 1%float
  /\ editedContent (app after) <> ""
  /\ chatHistory (app after) <> [].
Proof.
  vm_compute.
  repeat split;
    [discriminate | apply float_neq; reflexivity | discriminate | discriminate].
Qed.

(** C1, amended: selecting a new PDF file resets the document data of the
    session (text, page texts, page count, error) and marks it as being
    processed before the extraction completes; the page number, the zoom
    factor, the draft and the chat transcript stay as they were, and the
    page number becomes 1 when the extraction completes successfully. *)
Theorem upload_resets_document_data (env : Env) (w : World) (f : File) :
  type f = "application/pdf" ->
  let w' := handleFileUpload (Some f) w in
  pdfState (app w') = mkPDFState (Some f) (Some (objectURL f)) "" [] 0%Z true None
  /\ pending w' = (pending w ++ [AwaitGetDocument f])%list
  /\ currentPage (app w') = currentPage (app w)
  /\ zoom (app w') = zoom (app w)
  /\ editedContent (app w') = editedContent (app w)
  /\ chatHistory (app w') = chatHistory (app w)
  /\ (forall d w0, extractTextFromPDF f = Resolved d ->
        let done := resume env (AwaitExtract f) w0 in
        currentPage (app done) = 1%Z
        /\ zoom (app done) = zoom (app w0)
        /\ editedContent (app done) = editedContent (app w0)
        /\ chatHistory (app done) = chatHistory (app w0)).
Proof.
  intros Hpdf. unfold handleFileUpload. rewrite Hpdf. simpl.
  repeat split.
  all: simpl; rewrite H; reflexivity.
Qed.

Lemma upload_resets_document_data_witness :
  type Sample.reportFile = "application/pdf"
  /\ chatHistory
       (app (handleFileUpload (Some Sample.reportFile)
               (run Sample.helpful start (Sample.workSession ++ [CloseClicked]))))
     = [mkChatMessage user "hi"; mkChatMessage assistant "You asked: hi"].
Proof.
  split; [reflexivity |].
  destruct (upload_resets_document_data Sample.helpful
              (run Sample.helpful start (Sample.workSession ++ [CloseClicked]))
              Sample.reportFile eq_refl) as (_ & _ & _ & _ & _ & H & _).
  rewrite H. reflexivity.
Defined.

(** C2, as stated, fails: with a summary in the draft, a transformation
    whose provider call fails replaces the draft by the error text that
    [processDocumentAction] returns. *)
Lemma failed_transform_overwrites_draft :
  let before := run Sample.flaky start
                  (Sample.loadFruit ++ [ActionClicked Sample.summarize; Settled 0]) in
  let after := run Sample.flaky before [ActionClicked Sample.translate; Settled 0] in
  generateContent Sample.flaky "key"
    (actionRequest (text (pdfState (app before))) (prompt Sample.translate) "")
  = Rejected "quota exceeded"
  /\ editedContent (app before) = "- three fruit desserts"
  /\ editedContent (app after) = "Error: quota exceeded"
  /\ editedContent (app after) <> editedContent (app before).
Proof.
  vm_compute. repeat split. discriminate.
Qed.

(** C2, amended: a transformation never changes the document state of the
    session, so its status stays Ready whatever the outcome.  The draft
    keeps its value when the call fails because no AI client can be made
    (the API key is missing); when the provider call itself fails,
    [processDocumentAction] returns the text "Error: " followed by the
    error message, and the draft is overwritten with that text. *)
Theorem transform_outcome (env : Env) (w : World) (action : EditAction) :
  text (pdfState (app w)) <> "" ->
  let docText := text (pdfState (app w)) in
  let after := settle env (List.length (pending w)) (handleAction action w) in
  pdfState (app after) = pdfState (app w)
  /\ status (pdfState (app after)) = status (pdfState (app w))
  /\ isAiLoading (app after) = false
  /\ match getAIClient env with
     | Rejected _ => editedContent (app after) = editedContent (app w)
     | Resolved ai =>
         match generateContent env ai (actionRequest docText (prompt action) "") with
         | Rejected msg =>
             editedContent (app after)
             = "Error: " ++ JS.or_else msg "Failed to communicate with AI"
         | Resolved result =>
             editedContent (app after)
             = JS.or_else result "I couldn't process the request. Please try again."
         end
     end.
Proof.
  intros Htext. simpl. unfold handleAction.
  apply truthy_iff in Htext. rewrite Htext. simpl negb. cbv iota.
  change (pending w) with (pending (update (fun s => setActiveTab edit (setIsAiLoading true s)) w)).
  rewrite settle_suspended. simpl. unfold processDocumentAction.
  destruct (getAIClient env) as [ai | m]; simpl.
  - destruct (generateContent env ai _) as [result | msg]; simpl; repeat split.
  - repeat split.
Qed.

Lemma transform_outcome_witness :
  text (pdfState (app (run Sample.keyless start Sample.loadFruit))) <> ""
  /\ editedContent
       (app (settle Sample.keyless 0
               (handleAction Sample.summarize (run Sample.keyless start Sample.loadFruit))))
     = "".
Proof.
  assert (H : text (pdfState (app (run Sample.keyless start Sample.loadFruit))) <> "")
    by (vm_compute; discriminate).
  split; [exact H |].
  destruct (transform_outcome Sample.keyless
              (run Sample.keyless start Sample.loadFruit) Sample.summarize H)
    as (_ & _ & _ & E).
  exact E.
Defined.

(** C3, as stated, fails: on page 2 of a three-page document, entering 7
    or 0 in the page number field leaves the page at 2; the nearest
    boundary would be 3, respectively 1. *)
Lemma page_input_out_of_range_is_ignored :
  let ready := run Sample.helpful start (Sample.loadFruit ++ [PageInputChanged "2"]) in
  status (pdfState (app ready)) = Ready
  /\ numPages (pdfState (app ready)) = 3%Z
  /\ currentPage (app (step Sample.helpful ready (PageInputChanged "7"))) = 2%Z
  /\ currentPage (app (step Sample.helpful ready (PageInputChanged "7"))) <> 3%Z
  /\ currentPage (app (step Sample.helpful ready (PageInputChanged "0"))) = 2%Z
  /\ currentPage (app (step Sample.helpful ready (PageInputChanged "0"))) <> 1%Z.
Proof.
  vm_compute. repeat split; discriminate.
Qed.

(** C3, amended: a page number [p] entered in the page number field
    becomes the current page when [p] is in [1, pageCount]; when [p] is
    outside that range the entry is ignored and the current page stays
    what it was, without any error.  The previous and next buttons move by
    one page and clamp at 1 and at [pageCount]. *)
Theorem page_navigation (s : App) (value : string) (p : Z) :
  JS.parseInt value = JS.Int p ->
  ((1 <= p <= numPages (pdfState s))%Z ->
     currentPage (pageInputChange value s) = p)
  /\ ((p < 1 \/ numPages (pdfState s) < p)%Z -> pageInputChange value s = s)
  /\ pdfState (pageInputChange value s) = pdfState s
  /\ currentPage (prevPage s) = Z.max 1 (currentPage s - 1)
  /\ currentPage (nextPage s) = Z.min (numPages (pdfState s)) (currentPage s + 1).
Proof.
  intros Hp. unfold pageInputChange. rewrite Hp. simpl.
  repeat split.
  - intros [H1 H2].
    apply Z.leb_le in H1, H2. now rewrite H1, H2.
  - intros H.
    destruct (1 <=? p)%Z eqn:H1; simpl; [| reflexivity].
    destruct (p <=? numPages (pdfState s))%Z eqn:H2; [| reflexivity].
    apply Z.leb_le in H1, H2. lia.
  - destruct ((1 <=? p)%Z && (p <=? numPages (pdfState s))%Z); reflexivity.
Qed.

Lemma page_navigation_witness :
  JS.parseInt "2" = JS.Int 2
  /\ currentPage
       (pageInputChange "2" (app (run Sample.helpful start Sample.loadFruit))) = 2%Z.
Proof.
  split; [reflexivity |].
  destruct (page_navigation (app (run Sample.helpful start Sample.loadFruit)) "2" 2 eq_refl)
    as (H & _).
  apply H. vm_compute. split; discriminate.
Defined.

(** What [chatWithDocument] resolves with: the text of the provider's
    answer, or one of two fixed texts; it rejects only when no client
    can be made. *)
Lemma chatWithDocument_cases (env : Env) (docText : string)
    (history : list ChatMessage) (userMessage : string) :
  match chatWithDocument env docText history userMessage with
  | Resolved reply =>
      (exists ai, getAIClient env = Resolved ai
                  /\ sendMessage env ai (chatRequest docText history userMessage)
                     = Resolved reply /\ reply <> "")
      \/ reply = "No response received."
      \/ reply = "Something went wrong during the conversation."
  | Rejected m => m = "API Key is missing" /\ getAIClient env = Rejected m
  end.
Proof.
  unfold chatWithDocument.
  destruct (getAIClient env) as [ai | m] eqn:G.
  - destruct (sendMessage env ai _) as [t | e] eqn:S.
    + destruct t as [| c t]; simpl; [now right; left |].
      left. exists ai. repeat split; [exact S | discriminate].
    + now right; right.
  - split; [| reflexivity]. unfold getAIClient in G.
    destruct (API_KEY env) as [k |]; [destruct (JS.truthy k) |]; congruence.
Qed.





(** The search of the specification's example: "banana" is found on page
    2, "kiwi" on no page. *)
Example search_banana_and_kiwi :
  let ready := run Sample.helpful start Sample.loadFruit in
  currentPage (app ready) = 1%Z
  /\ currentPage
       (app (run Sample.helpful ready [SearchQueryChanged "Banana"; SearchSubmitted])) = 2%Z
  /\ currentPage
       (app (run Sample.helpful ready
               [PageInputChanged "3"; SearchQueryChanged "kiwi"; SearchSubmitted])) = 3%Z.
Proof. vm_compute. repeat split. Qed.




(** C7: while the session is Empty, a selection that is no PDF file is
    turned down at once: the session stays Empty with the error message
    set, nothing is left pending, so no extraction starts and the session
    does not go to Loading, and the document data (text, page texts, page
    count) is what it was. *)
Theorem non_pdf_selection_is_rejected (w : World) (files0 : option File) :
  status (pdfState (app w)) = Empty ->
  notPdf files0 ->
  let w' := handleFileUpload files0 w in
  status (pdfState (app w')) = Empty
  /\ error (pdfState (app w')) = Some "Please upload a valid PDF file."
  /\ pending w' = pending w
  /\ isProcessing (pdfState (app w')) = isProcessing (pdfState (app w))
  /\ file (pdfState (app w')) = None
  /\ text (pdfState (app w')) = text (pdfState (app w))
  /\ pageTexts (pdfState (app w')) = pageTexts (pdfState (app w))
  /\ numPages (pdfState (app w')) = numPages (pdfState (app w)).
Proof.
  intros Hempty Hnot. simpl.
  assert (Hfile : file (pdfState (app w)) = None).
  { unfold status in Hempty. destruct (file (pdfState (app w))); [| reflexivity].
    destruct (isProcessing _); [discriminate |]. destruct (error _); discriminate. }
  assert (E : handleFileUpload files0 w = update (setPdfState uploadRejected) w).
  { unfold handleFileUpload. destruct files0 as [f |]; [| reflexivity].
    simpl in Hnot. apply String.eqb_neq in Hnot. now rewrite Hnot. }
  rewrite E. simpl. unfold status. simpl. rewrite Hfile. now repeat split.
Qed.

Lemma non_pdf_selection_is_rejected_witness :
  status (pdfState (app start)) = Empty
  /\ notPdf (Some Sample.notesFile)
  /\ status (pdfState (app (handleFileUpload (Some Sample.notesFile) start))) = Empty
  /\ error (pdfState (app (handleFileUpload (Some Sample.notesFile) start)))
     = Some "Please upload a valid PDF file.".
Proof.
  assert (H1 : status (pdfState (app start)) = Empty) by reflexivity.
  assert (H2 : notPdf (Some Sample.notesFile)) by (simpl; discriminate).
  split; [exact H1 |]. split; [exact H2 |].
  destruct (non_pdf_selection_is_rejected start (Some Sample.notesFile) H1 H2)
    as (S1 & S2 & _).
  split; [exact S1 | exact S2].
Defined.


(** The requests, and so the answers, depend on the document text only
    through the part that is kept. *)
Lemma requests_ignore_the_dropped_text (env : Env) (d1 d2 actionPrompt context : string) :
  JS.substring0 15000 d1 = JS.substring0 15000 d2 ->
  processDocumentAction env d1 actionPrompt context
  = processDocumentAction env d2 actionPrompt context.
Proof.
  intros H. unfold processDocumentAction, actionRequest. now rewrite H.
Qed.

(** Every handler and every resumed task leaves the transcript as it is
    or adds messages at its end. *)
Lemma transcript_extended_by_step (env : Env) (w : World) (e : Event) :
  exists added,
    chatHistory (app (step env w e)) = (chatHistory (app w) ++ added)%list.
Proof.
  assert (Same : forall s', chatHistory s' = chatHistory (app w) ->
                            exists added,
                              chatHistory s' = (chatHistory (app w) ++ added)%list).
  { intros s' H. exists []. now rewrite app_nil_r. }
  unfold step. destruct (enabled (app w) e); [| now apply Same].
  destruct e; simpl; try (now apply Same).
  - apply Same. unfold handleFileUpload. destruct files0 as [f |]; [| reflexivity].
    destruct (negb _); reflexivity.
  - apply Same. unfold handleAction. destruct (negb _); reflexivity.
  - apply Same. unfold pageInputChange.
    destruct (JS.inRange _ _ _); [| reflexivity]. destruct (JS.parseInt value); reflexivity.
  - apply Same. unfold handleSearch.
    destruct (negb _); [reflexivity |]. destruct (negb _); reflexivity.
  - unfold handleSendMessage. destruct (_ || _); [now apply Same |].
    simpl. now eexists.
  - unfold settle. destruct (nth_error (pending w) i) as [t |]; [| now apply Same].
    destruct t as [f | f | docText actionPrompt | docText history userMessage]; simpl.
    + apply Same. destruct (getDocument f); reflexivity.
    + apply Same. destruct (extractTextFromPDF f); reflexivity.
    + apply Same. destruct (processDocumentAction env docText actionPrompt ""); reflexivity.
    + destruct (chatWithDocument env docText history userMessage); simpl; now eexists.
Qed.

(** C9, as stated, fails in its clause on clearing: the transcript of a
    session survives the close of the document, the selection of a new
    file and the completed load of that file. *)
Lemma close_and_upload_keep_the_transcript :
  let w := run Sample.helpful start Sample.workSession in
  let said := [mkChatMessage user "hi"; mkChatMessage assistant "You asked: hi"] in
  chatHistory (app (step Sample.helpful w CloseClicked)) = said
  /\ chatHistory
       (app (run Sample.helpful w [CloseClicked; FileSelected (Some Sample.reportFile)]))
     = said
  /\ chatHistory
       (app (run Sample.helpful w
               [CloseClicked; FileSelected (Some Sample.reportFile); Settled 0; Settled 0]))
     = said
  /\ said <> [].
Proof.
  vm_compute. repeat split. discriminate.
Qed.

(** C9, amended: the chat transcript is append-only: whatever happens
    to the component, the transcript afterwards is the transcript before
    with messages added at its end, so no message is ever edited or
    removed.  Nothing clears it: the close of the document and the
    selection of a file leave it exactly as it was. *)
Theorem transcript_is_append_only (env : Env) (w : World) (trace : list Event)
    (files0 : option File) :
  (exists added,
      chatHistory (app (run env w trace)) = (chatHistory (app w) ++ added)%list)
  /\ chatHistory (close (app w)) = chatHistory (app w)
  /\ chatHistory (app (handleFileUpload files0 w)) = chatHistory (app w).
Proof.
  split; [| split].
  - revert w. induction trace as [| e trace IH]; intros w; simpl.
    + exists []. now rewrite app_nil_r.
    + destruct (IH (step env w e)) as [later Hlater].
      destruct (transcript_extended_by_step env w e) as [added Hadded].
      exists (added ++ later)%list. now rewrite Hlater, Hadded, app_assoc.
  - reflexivity.
  - unfold handleFileUpload. destruct files0 as [f |]; [| reflexivity].
    destruct (negb _); reflexivity.
Qed.

(** C10: the history handed to [chatWithDocument] has no effect: for any
    two histories, the same document text and the same user message, the
    request that is sent, the result of the call and the world in which
    the chat handler resumes are the same. *)
Theorem chat_history_is_ignored (env : Env) (docText userMessage : string)
    (history1 history2 : list ChatMessage) (w : World) :
  chatRequest docText history1 userMessage = chatRequest docText history2 userMessage
  /\ chatWithDocument env docText history1 userMessage
     = chatWithDocument env docText history2 userMessage
  /\ resume env (AwaitChat docText history1 userMessage) w
     = resume env (AwaitChat docText history2 userMessage) w.
Proof.
  repeat split.
Qed.

(** ** What the session maintains *)

Module SessionFacts.

Import PdfService GeminiService App Spec Session JSFacts PdfFacts AppFacts.

Lemma filter_snoc_length {A : Type} (p : A -> bool) (l : list A) (t : A) :
  List.length (filter p (l ++ [t]))
  = (List.length (filter p l) + (if p t then 1 else 0))%nat.
Proof.
  rewrite filter_app, length_app. simpl. now destruct (p t).
Qed.

Lemma filter_removeNth_length {A : Type} (p : A -> bool) (l : list A) :
  forall i t,
    nth_error l i = Some t ->
    List.length (filter p l)
    = (List.length (filter p (removeNth i l)) + (if p t then 1 else 0))%nat.
Proof.
  induction l as [| x l IH]; intros [| i] t H; simpl in H; try discriminate.
  - injection H as ->. simpl. destruct (p t); simpl; lia.
  - simpl. specialize (IH i t H). destruct (p x); simpl; lia.
Qed.

(** [findIndexFrom] answers [-1] or a position of the list. *)
Lemma findIndexFrom_range {A : Type} (p : A -> bool) (l : list A) :
  forall i,
    JS.findIndexFrom p l i = (-1)%Z
    \/ (i <= JS.findIndexFrom p l i < i + Z.of_nat (List.length l))%Z.
Proof.
  induction l as [| x l IH]; intros i; simpl; [now left |].
  destruct (p x); [right; lia |].
  destruct (IH (i + 1)%Z) as [H | H]; [now left | right; lia].
Qed.

(** The zoom levels hold the initial factor, are closed under the zoom
    buttons and lie between 0.5 and 3. *)
Lemma zoomLevels_initial : In 1%float zoomLevels.
Proof. vm_compute. repeat (first [left; reflexivity | right]). Qed.

Lemma zoomLevels_closed (z : float) :
  In z zoomLevels ->
  In (JS.Math_min 3%float (PrimFloat.add z 0.1%float)) zoomLevels
  /\ In (JS.Math_max 0.5%float (PrimFloat.sub z 0.1%float)) zoomLevels
  /\ PrimFloat.leb 0.5%float z = true
  /\ PrimFloat.leb z 3%float = true.
Proof.
  intros H. vm_compute in H.
  repeat (destruct H as [<- | H];
          [vm_compute;
           split; [repeat (first [left; reflexivity | right]) |];
           split; [repeat (first [left; reflexivity | right]) |];
           split; reflexivity |]).
  contradiction.
Qed.

#[local] Opaque zoomLevels.

Lemma inFlight_suspend (kind : Task -> bool) (t : Task) (w : World) :
  inFlight kind (suspend t w) = (inFlight kind w + (if kind t then 1 else 0))%nat.
Proof. unfold inFlight, suspend. simpl. apply filter_snoc_length. Qed.

Lemma inFlight_removed (kind : Task -> bool) (w : World) (i : nat) (t : Task) :
  nth_error (pending w) i = Some t ->
  inFlight kind w
  = (inFlight kind (mkWorld (app w) (removeNth i (pending w)))
     + (if kind t then 1 else 0))%nat.
Proof. intros H. unfold inFlight. simpl. now apply filter_removeNth_length. Qed.

Lemma messagesFrom_snoc (r : Role) (l : list ChatMessage) (m : ChatMessage) :
  messagesFrom r (l ++ [m])
  = (messagesFrom r l + (if isFrom r m then 1 else 0))%nat.
Proof. unfold messagesFrom. apply filter_snoc_length. Qed.

Lemma numPages_nonneg (p : PDFState) : coherent p -> (0 <= numPages p)%Z.
Proof. intros [H _]. lia. Qed.

Lemma invariant_start : invariant start.
Proof.
  constructor; simpl; try reflexivity; try discriminate.
  - apply coherent_empty.
  - unfold validPage. simpl. lia.
  - apply zoomLevels_initial.
Qed.

Ltac open_invariant H :=
  destruct H as [Hcoherent Hpage Hzoom Hbusy Hprocessing Hreplies Hurl];
  pose proof (numPages_nonneg _ Hcoherent) as Hnonneg;
  unfold validPage in Hpage.

Ltac same_flights :=
  unfold inFlight in *; simpl in *; try assumption.

Lemma invariant_handle_user (env : Env) (e : Event) (w : World) :
  (forall i, e <> Settled i) ->
  invariant w -> invariant (handle env e w).
Proof.
  intros Hnot H. destruct w as [s pend]. pose proof H as Hinv. open_invariant H.
  simpl in *.
  destruct e; cbv [handle handleFileUpload handleAction handleSendMessage update app pending].
  - (* file selected *)
    assert (Hrej : invariant (mkWorld (setPdfState uploadRejected s) pend)).
    { constructor; simpl; try assumption. }
    destruct files0 as [f |]; [| exact Hrej].
    destruct (negb (type f =? "application/pdf")); [exact Hrej |].
    change (invariant (suspend (AwaitGetDocument f)
                         (mkWorld (setPdfState (fun _ => uploadStarted f) s) pend))).
    constructor; try rewrite !inFlight_suspend; simpl.
    + apply coherent_started.
    + unfold validPage. simpl. split; [tauto | lia].
    + assumption.
    + intros Hb. specialize (Hbusy Hb). unfold inFlight in *. simpl in *. lia.
    + intros _. split; [discriminate | lia].
    + unfold inFlight in *. simpl in *. lia.
    + reflexivity.
  - (* close *)
    constructor; simpl; try assumption; try reflexivity; try discriminate.
    + apply coherent_empty.
    + unfold validPage. simpl. split; [tauto | lia].
  - (* tab *)
    constructor; simpl; assumption.
  - (* action *)
    destruct (negb _); [exact Hinv |].
    constructor; try rewrite !inFlight_suspend; simpl; try assumption.
    + intros _. lia.
    + intros Hp. destruct (Hprocessing Hp) as [Hf Hn]. split; [exact Hf |].
      unfold inFlight in *. simpl in *. lia.
    + unfold inFlight in *. simpl in *. lia.
  - (* zoom out *)
    constructor; simpl; try assumption.
    apply (zoomLevels_closed _ Hzoom).
  - (* zoom in *)
    constructor; simpl; try assumption.
    apply (zoomLevels_closed _ Hzoom).
  - (* zoom reset *)
    constructor; simpl; try assumption.
    apply zoomLevels_initial.
  - (* previous page *)
    constructor; simpl; try assumption.
    unfold validPage. simpl. lia.
  - (* next page *)
    constructor; simpl; try assumption.
    unfold validPage. simpl. lia.
  - (* page number field *)
    unfold pageInputChange.
    destruct (JS.parseInt value) as [| z]; simpl; [exact Hinv |].
    destruct (1 <=? z)%Z eqn:H1; simpl; [| exact Hinv].
    destruct (z <=? numPages (pdfState s))%Z eqn:H2; [| exact Hinv].
    apply Z.leb_le in H1, H2.
    constructor; simpl; try assumption.
    unfold validPage. simpl. lia.
  - (* search query *)
    constructor; simpl; assumption.
  - (* search *)
    unfold handleSearch. destruct (negb (JS.truthy _)); [exact Hinv |].
    unfold JS.findIndex.
    match goal with
    | |- context [JS.findIndexFrom ?p ?l 0%Z] =>
        destruct (findIndexFrom_range p l 0%Z) as [Hr | Hr];
        destruct (JS.findIndexFrom p l 0%Z =? -1)%Z eqn:Hfound; simpl
    end; try (exact Hinv).
    + apply Z.eqb_neq in Hfound. contradiction.
    + constructor; simpl; try assumption.
      destruct Hcoherent as [Hlen _].
      unfold validPage. simpl. lia.
  - (* chat input *)
    constructor; simpl; assumption.
  - (* message *)
    destruct (negb (JS.truthy (JS.trim (userInput s))));
      [exact Hinv |].
    destruct (negb (JS.truthy (text (pdfState s))));
      [exact Hinv |].
    destruct (isAiLoading s) eqn:Hb; [exact Hinv |].
    simpl.
    constructor; try rewrite !inFlight_suspend; simpl; try assumption.
    + intros _. lia.
    + intros Hp. destruct (Hprocessing Hp) as [Hf Hn]. split; [exact Hf |].
      unfold inFlight in *. simpl in *. lia.
    + rewrite !messagesFrom_snoc. simpl.
      unfold inFlight in *. simpl in *. lia.
  - exfalso. now apply (Hnot i).
Qed.

Lemma invariant_settle (env : Env) (i : nat) (w : World) :
  invariant w -> invariant (settle env i w).
Proof.
  intros H. unfold settle.
  destruct (nth_error (pending w) i) as [t |] eqn:Hnth; [| exact H].
  pose proof (inFlight_removed isAiTask w i t Hnth) as Hai.
  pose proof (inFlight_removed isUploadTask w i t Hnth) as Hup.
  pose proof (inFlight_removed isChatTask w i t Hnth) as Hchat.
  open_invariant H.
  set (w' := mkWorld (app w) (removeNth i (pending w))) in *.
  assert (Hfailed : isUploadTask t = true ->
                    isAiTask t = false -> isChatTask t = false ->
                    invariant (update (setPdfState uploadFailed) w')).
  { intros U A C. rewrite A in Hai. rewrite C in Hchat.
    constructor; simpl; try assumption; try discriminate.
    - intros Hb. specialize (Hbusy Hb). unfold inFlight in *. simpl in *. lia.
    - unfold inFlight in *. simpl in *. lia. }
  destruct t as [f | f | docText actionPrompt | docText history userMessage];
    cbv [resume]; simpl in Hai, Hup, Hchat.
  - destruct (getDocument f) as [doc | m]; [| now apply Hfailed].
    constructor; try rewrite !inFlight_suspend; simpl; try assumption.
    + intros Hb. specialize (Hbusy Hb). unfold inFlight in *. simpl in *. lia.
    + intros Hp. destruct (Hprocessing Hp) as [Hf Hn]. split; [exact Hf |].
      unfold inFlight in *. simpl in *. lia.
    + unfold inFlight in *. simpl in *. lia.
  - destruct (extractTextFromPDF f) as [d | m] eqn:E; [| now apply Hfailed].
    apply extractTextFromPDF_spec in E.
    constructor; simpl; try assumption; try discriminate.
    + destruct E as [E _]. unfold validPage. simpl. lia.
    + intros Hb. specialize (Hbusy Hb). unfold inFlight in *. simpl in *. lia.
    + unfold inFlight in *. simpl in *. lia.
  - assert (invariant (update (setIsAiLoading false) w')) as Hkept.
    { constructor; simpl; try assumption; try discriminate.
      - intros Hp. destruct (Hprocessing Hp) as [Hf Hn]. split; [exact Hf |].
        unfold inFlight in *. simpl in *. lia.
      - unfold inFlight in *. simpl in *. lia. }
    destruct (processDocumentAction env docText actionPrompt ""); [| exact Hkept].
    constructor; simpl; try assumption; try discriminate.
    + intros Hp. destruct (Hprocessing Hp) as [Hf Hn]. split; [exact Hf |].
      unfold inFlight in *. simpl in *. lia.
    + unfold inFlight in *. simpl in *. lia.
  - destruct (chatWithDocument env docText history userMessage);
      (constructor; simpl; try assumption; try discriminate;
       [ intros Hp; destruct (Hprocessing Hp) as [Hf Hn]; split; [exact Hf |];
         unfold inFlight in *; simpl in *; lia
       | rewrite !messagesFrom_snoc; simpl;
         unfold inFlight in *; simpl in *; lia ]).
Qed.

Lemma invariant_step (env : Env) (w : World) (e : Event) :
  invariant w -> invariant (step env w e).
Proof.
  intros H. unfold step. destruct (enabled (app w) e); [| exact H].
  destruct e; try (apply invariant_handle_user; [intros i; discriminate | exact H]).
  now apply invariant_settle.
Qed.

(** The invariant holds in every world the session can reach. *)
Lemma invariant_run (env : Env) (trace : list Event) :
  forall w, invariant w -> invariant (run env w trace).
Proof.
  induction trace as [| e trace IH]; intros w H; simpl; [exact H |].
  apply IH. now apply invariant_step.
Qed.

Lemma invariant_reachable (env : Env) (trace : list Event) :
  invariant (run env start trace).
Proof. apply invariant_run, invariant_start. Qed.

End SessionFacts.

(** ** Page numbers as text *)

Module ParseFacts.

Import JSFacts.

(** Reading the digits of a decimal numeral continues the value read so
    far. *)
Lemma parseDigits_numeral (d : Decimal.uint) :
  forall (acc : nat) (seen : bool),
    seen = true \/ d <> Decimal.Nil ->
    JS.parseDigits 10 (NilEmpty.string_of_uint d) (Z.of_nat acc) seen
    = Some (Z.of_nat (Nat.of_uint_acc d acc)).
Proof.
  induction d; intros acc seen H;
    try (cbn [NilEmpty.string_of_uint JS.parseDigits Nat.of_uint_acc];
         match goal with
         | |- context [JS.digitValue 10 ?c] =>
             change (JS.digitValue 10 c) with (JS.digitValue 10 c);
             let v := eval vm_compute in (JS.digitValue 10 c) in
             change (JS.digitValue 10 c) with v
         end;
         cbv iota beta;
         match goal with
         | |- JS.parseDigits 10 _ ?a true = Some (Z.of_nat (Nat.of_uint_acc _ ?b)) =>
             replace a with (Z.of_nat b)
               by (rewrite ?Nat.tail_mul_spec; lia)
         end;
         apply IHd; now left).
  simpl. destruct H as [-> | H]; [reflexivity | contradiction].
Qed.

Lemma to_uint_nonnil (n : nat) : Nat.to_uint n <> Decimal.Nil.
Proof.
  rewrite <- (DecimalNat.Unsigned.of_to n) at 1. rewrite DecimalNat.Unsigned.to_of.
  unfold Decimal.unorm. destruct (Decimal.nzhead (Nat.to_uint n)); discriminate.
Qed.

(** A decimal numeral has no white space, sign or radix prefix for
    [parseInt] to take off. *)
Lemma parseInt_numeral (d : Decimal.uint) :
  d <> Decimal.Nil ->
  JS.parseInt (NilEmpty.string_of_uint d)
  = match JS.parseDigits 10 (NilEmpty.string_of_uint d) 0%Z false with
    | Some z => JS.Int z
    | None => JS.NaN
    end.
Proof.
  intros H. destruct d as [| d | d | d | d | d | d | d | d | d | d];
    try contradiction; try reflexivity.
  destruct d; reflexivity.
Qed.

Lemma parseInt_numberToString (n : nat) :
  JS.parseInt (JS.numberToString n) = JS.Int (Z.of_nat n).
Proof.
  unfold JS.numberToString.
  rewrite (parseInt_numeral _ (to_uint_nonnil n)).
  change 0%Z with (Z.of_nat 0).
  rewrite (parseDigits_numeral (Nat.to_uint n) 0 false (or_intror (to_uint_nonnil n))).
  change (Nat.of_uint_acc (Nat.to_uint n) 0) with (Nat.of_uint (Nat.to_uint n)).
  now rewrite DecimalNat.Unsigned.of_to.
Qed.

End ParseFacts.

(** ** Further facts on extraction and tasks *)

Module MoreFacts.

Import PdfService GeminiService App Spec Session JSFacts PdfFacts AppFacts.

Lemma extractLoop_readable (items : list (list string)) :
  forall i fullText pageTexts,
    extractLoop (map Resolved items) i fullText pageTexts
    = Resolved (fullText ++ joinPagesFrom i (map (JS.join " ") items),
                (pageTexts ++ map (JS.join " ") items)%list).
Proof.
  induction items as [| it items IH]; intros i ft pts; simpl.
  - now rewrite append_nil_r, app_nil_r.
  - rewrite IH. now rewrite append_assoc, <- app_assoc.
Qed.

Lemma extractLoop_resolved_pages (pages : list Page) :
  forall i fullText pageTexts r,
    extractLoop pages i fullText pageTexts = Resolved r ->
    exists items, pages = map Resolved items.
Proof.
  induction pages as [| page rest IH]; intros i ft pts r H; simpl in H.
  - now exists [].
  - destruct page as [it | m]; [| discriminate].
    destruct (IH _ _ _ _ H) as [items ->]. now exists (it :: items).
Qed.

Lemma extractTextFromPDF_readable (f : File) (items : list (list string)) :
  readable f items ->
  extractTextFromPDF f
  = Resolved
      (mkExtractedData (joinPages (map (JS.join " ") items))
                       (map (JS.join " ") items)
                       (Z.of_nat (List.length items))).
Proof.
  intros H. unfold extractTextFromPDF. rewrite H.
  rewrite extractLoop_readable. simpl. now rewrite length_map.
Qed.

Lemma joinPagesFrom_occurs (l : list string) :
  forall i n t,
    nth_error l n = Some t ->
    occursIn (pageBlock (i + n) t) (joinPagesFrom i l).
Proof.
  induction l as [| x l IH]; intros i [| n] t H; simpl in H; try discriminate.
  - injection H as ->. exists "", (joinPagesFrom (S i) l).
    rewrite Nat.add_0_r. reflexivity.
  - destruct (IH (S i) n t H) as [pre [post E]].
    exists (pageBlock i x ++ pre), post.
    change (joinPagesFrom i (x :: l)) with (pageBlock i x ++ joinPagesFrom (S i) l).
    rewrite E, append_assoc.
    replace (i + S n)%nat with (S i + n)%nat by lia. reflexivity.
Qed.

Lemma joinPages_empty_iff (l : list string) : joinPages l = "" <-> l = [].
Proof.
  destruct l as [| t l]; split; try reflexivity; discriminate.
Qed.

Lemma filter_nonempty_nth {A : Type} (p : A -> bool) (l : list A) :
  (0 < List.length (filter p l))%nat ->
  exists i t, nth_error l i = Some t /\ p t = true.
Proof.
  induction l as [| x l IH]; simpl; [lia |].
  destruct (p x) eqn:P.
  - intros _. now exists 0%nat, x.
  - intros H. destruct (IH H) as [i [t [Hn Ht]]]. now exists (S i), t.
Qed.

End MoreFacts.

(** ** Further properties of the session *)

Import Session SessionFacts ParseFacts MoreFacts.

(** X1: for a file that opens and all of whose pages can be read, the
    extraction resolves with one text per page, in page order, each the
    items of the page joined by single spaces, with the full text their
    join under the page headings and the page count their number. *)
Theorem extraction_of_readable_file (f : File) (items : list (list string)) :
  readable f items ->
  extractTextFromPDF f
  = Resolved
      (mkExtractedData (joinPages (map (JS.join " ") items))
                       (map (JS.join " ") items)
                       (Z.of_nat (List.length items))).
Proof.
  exact (extractTextFromPDF_readable f items).
Qed.

Lemma extraction_of_readable_file_witness :
  readable Sample.fruitFile [["apple"; "pie"]; ["banana"; "split"]; ["cherry tart"]]
  /\ exists d,
       extractTextFromPDF Sample.fruitFile = Resolved d
       /\ PdfService.pageTexts d = ["apple pie"; "banana split"; "cherry tart"].
Proof.
  assert (H : readable Sample.fruitFile
                [["apple"; "pie"]; ["banana"; "split"]; ["cherry tart"]])
    by reflexivity.
  split; [exact H |].
  eexists. split; [exact (extraction_of_readable_file _ _ H) | reflexivity].
Defined.

(** X2: the extraction is all or nothing: it resolves exactly when the
    file opens and every page can be read; one page that cannot be read
    makes the whole extraction reject, with no partial result. *)
Theorem extraction_is_all_or_nothing (f : File) :
  (exists d, extractTextFromPDF f = Resolved d)
  <-> (exists items, readable f items).
Proof.
  split.
  - intros [d H]. unfold extractTextFromPDF in H. unfold readable.
    destruct (getDocument f) as [pdf | m]; [| discriminate].
    destruct (extractLoop pdf 1 "" []) as [r | m] eqn:E; [| discriminate].
    destruct (extractLoop_resolved_pages _ _ _ _ _ E) as [items ->].
    now exists items.
  - intros [items H]. unfold readable in H. unfold extractTextFromPDF.
    rewrite H, extractLoop_readable. now eexists.
Qed.

(** X3: in every state the session can reach, the text of page [n + 1]
    occurs in the full text, under the heading of that page and followed
    by an empty line. *)
Theorem page_text_occurs_in_full_text (env : Env) (trace : list Event)
    (n : nat) (t : string) :
  let p := pdfState (app (run env start trace)) in
  nth_error (pageTexts p) n = Some t ->
  occursIn ("--- Page " ++ JS.numberToString (S n) ++ " ---" ++ JS.nl ++ t ++ JS.nl ++ JS.nl)
           (text p).
Proof.
  intros p H.
  destruct (inv_coherent _ (invariant_reachable env trace)) as [_ Htext].
  fold p in Htext. rewrite Htext.
  exact (joinPagesFrom_occurs (pageTexts p) 1 n t H).
Qed.

Lemma page_text_occurs_in_full_text_witness :
  let p := pdfState (app (run Sample.helpful start Sample.loadFruit)) in
  nth_error (pageTexts p) 1 = Some "banana split"
  /\ occursIn ("--- Page 2 ---" ++ JS.nl ++ "banana split" ++ JS.nl ++ JS.nl) (text p).
Proof.
  split; [reflexivity |].
  exact (page_text_occurs_in_full_text Sample.helpful Sample.loadFruit 1 "banana split"
           eq_refl).
Defined.

(** X4: the upload of a PDF file that opens and whose pages can all be
    read, carried through its two awaits, ends in a Ready session that
    holds the file, its URL, the extracted texts and page count and no
    error, shows page 1, keeps the opened document for rendering and
    leaves nothing of its own pending; zoom, draft and transcript are
    untouched. *)
Theorem upload_of_readable_file (env : Env) (w : World) (f : File)
    (items : list (list string)) :
  type f = "application/pdf" ->
  readable f items ->
  let n := List.length (pending w) in
  let done := settle env n (settle env n (handleFileUpload (Some f) w)) in
  let texts := map (JS.join " ") items in
  pdfState (app done)
  = mkPDFState (Some f) (Some (objectURL f)) (joinPages texts) texts
               (Z.of_nat (List.length items)) false None
  /\ status (pdfState (app done)) = Ready
  /\ currentPage (app done) = 1%Z
  /\ pdfDocRef (app done) = Some (map Resolved items)
  /\ pending done = pending w
  /\ zoom (app done) = zoom (app w)
  /\ editedContent (app done) = editedContent (app w)
  /\ chatHistory (app done) = chatHistory (app w).
Proof.
  intros Hpdf Hread n done texts. subst done n.
  unfold handleFileUpload. rewrite Hpdf. simpl negb. cbv iota.
  match goal with
  | |- context [suspend ?t ?w'] =>
      change (pending w) with (pending w'); rewrite (settle_suspended env t w')
  end.
  cbv [resume]. pose proof Hread as Hdoc. unfold readable in Hdoc. rewrite Hdoc.
  match goal with
  | |- context [suspend ?t ?w'] =>
      change (List.length (pending (update (setPdfState (fun _ => uploadStarted f)) w)))
        with (List.length (pending w'));
      rewrite (settle_suspended env t w')
  end.
  cbv [resume]. rewrite (extractTextFromPDF_readable f items Hread).
  simpl. repeat split.
Qed.

Lemma upload_of_readable_file_witness :
  type Sample.reportFile = "application/pdf"
  /\ readable Sample.reportFile [["Q1"; "Revenue"]; ["Summary"]]
  /\ pageTexts
       (pdfState
          (app (settle Sample.helpful 0
                  (settle Sample.helpful 0
                     (handleFileUpload (Some Sample.reportFile) start)))))
     = ["Q1 Revenue"; "Summary"].
Proof.
  assert (H : readable Sample.reportFile [["Q1"; "Revenue"]; ["Summary"]])
    by reflexivity.
  split; [reflexivity |]. split; [exact H |].
  destruct (upload_of_readable_file Sample.helpful start Sample.reportFile _ eq_refl H)
    as (E & _).
  exact (f_equal pageTexts E).
Defined.

(** X5: when the upload of a PDF file fails, because the file does not
    open or because one of its pages cannot be read, the session ends up
    Failed with the fixed message and with no text, no page texts and a
    page count of zero; the file and its URL stay, the current page is
    not touched and nothing of the upload stays pending.  A document that
    opened before a page failed is still kept for rendering. *)
Theorem failed_upload_keeps_no_data (env : Env) (w : World) (f : File) (m : string) :
  type f = "application/pdf" ->
  extractTextFromPDF f = Rejected m ->
  let n := List.length (pending w) in
  let opened := settle env n (handleFileUpload (Some f) w) in
  let done :=
    match getDocument f with
    | Resolved _ => settle env n opened
    | Rejected _ => opened
    end in
  pdfState (app done)
  = mkPDFState (Some f) (Some (objectURL f)) "" [] 0%Z false
               (Some "Failed to extract text from PDF.")
  /\ status (pdfState (app done)) = Failed
  /\ pending done = pending w
  /\ currentPage (app done) = currentPage (app w)
  /\ pdfDocRef (app done)
     = match getDocument f with
       | Resolved pdf => Some pdf
       | Rejected _ => pdfDocRef (app w)
       end.
Proof.
  intros Hpdf Hfail n opened done. subst done opened n.
  unfold handleFileUpload. rewrite Hpdf. simpl negb. cbv iota.
  match goal with
  | |- context [suspend ?t ?w'] =>
      change (pending w) with (pending w'); rewrite (settle_suspended env t w')
  end.
  cbv [resume].
  destruct (getDocument f) as [pdf | m'] eqn:Hdoc.
  - match goal with
    | |- context [suspend ?t ?w'] =>
        change (List.length (pending (update (setPdfState (fun _ => uploadStarted f)) w)))
          with (List.length (pending w'));
        rewrite (settle_suspended env t w')
    end.
    cbv [resume]. rewrite Hfail. simpl. repeat split.
  - simpl. repeat split.
Qed.

Lemma failed_upload_keeps_no_data_witness :
  type Sample.brokenFile = "application/pdf"
  /\ extractTextFromPDF Sample.brokenFile = Rejected "bad page"
  /\ status
       (pdfState
          (app (settle Sample.helpful 0
                  (settle Sample.helpful 0
                     (handleFileUpload (Some Sample.brokenFile) start)))))
     = Failed.
Proof.
  split; [reflexivity |]. split; [reflexivity |].
  destruct (failed_upload_keeps_no_data Sample.helpful start Sample.brokenFile
              "bad page" eq_refl eq_refl) as (_ & E & _).
  exact E.
Defined.

(** X6: in every state the session can reach the current page is never
    negative, and whenever the document has pages it is one of them.
    Page 0 does occur: the next button, pressed on a session without
    pages such as one whose upload failed, sets it. *)
Theorem current_page_stays_valid (env : Env) (trace : list Event) :
  let s := app (run env start trace) in
  (0 <= currentPage s)%Z
  /\ ((0 < numPages (pdfState s))%Z ->
      (1 <= currentPage s <= numPages (pdfState s))%Z)
  /\ exists earlier,
       numPages (pdfState (app (run env start earlier))) = 0%Z
       /\ currentPage (app (run env start (earlier ++ [NextPageClicked]))) = 0%Z.
Proof.
  intros s. destruct (inv_page _ (invariant_reachable env trace)) as [H0 H1].
  split; [exact H0 |]. split; [exact H1 |].
  exists [FileSelected (Some Sample.corruptFile); Settled 0]. split; reflexivity.
Qed.

(** X7: in every state the session can reach the zoom factor lies
    between 0.5 and 3, whatever sequence of zoom buttons was pressed. *)
Theorem zoom_stays_in_range (env : Env) (trace : list Event) :
  let z := zoom (app (run env start trace)) in
  PrimFloat.leb 0.5%float z = true /\ PrimFloat.leb z 3%float = true.
Proof.
  intros z.
  destruct (zoomLevels_closed z (inv_zoom _ (invariant_reachable env trace)))
    as (_ & _ & Hlow & Hhigh).
  now split.
Qed.

(** X8: the busy flag is never stuck: whenever it is raised, a
    transformation or chat call is in flight, and the flag is lowered
    when that call settles, however it ends. *)
Theorem busy_flag_has_a_call_in_flight (env : Env) (trace : list Event) :
  let w := run env start trace in
  isAiLoading (app w) = true ->
  exists i t,
    nth_error (pending w) i = Some t
    /\ isAiTask t = true
    /\ isAiLoading (app (settle env i w)) = false.
Proof.
  intros w Hbusy.
  pose proof (inv_busy _ (invariant_reachable env trace) Hbusy) as Hflight.
  destruct (filter_nonempty_nth isAiTask (pending w) Hflight) as [i [t [Hn Ht]]].
  exists i, t. repeat split; try assumption.
  unfold settle. fold w. rewrite Hn.
  destruct t as [f | f | docText actionPrompt | docText history userMessage];
    try discriminate; cbv [resume].
  - destruct (processDocumentAction env docText actionPrompt ""); reflexivity.
  - destruct (chatWithDocument env docText history userMessage); reflexivity.
Qed.

Lemma busy_flag_has_a_call_in_flight_witness :
  let w := run Sample.helpful start
             (Sample.loadFruit ++ [ActionClicked Sample.summarize]) in
  isAiLoading (app w) = true
  /\ exists i t, nth_error (pending w) i = Some t /\ isAiTask t = true.
Proof.
  split; [reflexivity |].
  destruct (busy_flag_has_a_call_in_flight Sample.helpful
              (Sample.loadFruit ++ [ActionClicked Sample.summarize]) eq_refl)
    as (i & t & Hn & Ht & _).
  now exists i, t.
Defined.

(** X9: the processing flag is never stuck either: whenever it is
    raised, the session holds a file and an upload is in flight. *)
Theorem processing_flag_has_an_upload_in_flight (env : Env) (trace : list Event) :
  let w := run env start trace in
  isProcessing (pdfState (app w)) = true ->
  status (pdfState (app w)) = Loading
  /\ exists i t, nth_error (pending w) i = Some t /\ isUploadTask t = true.
Proof.
  intros w Hproc.
  destruct (inv_processing _ (invariant_reachable env trace) Hproc) as [Hfile Hflight].
  fold w in Hfile. split.
  - unfold status. destruct (file (pdfState (app w))); [| contradiction].
    now rewrite Hproc.
  - exact (filter_nonempty_nth isUploadTask (pending w) Hflight).
Qed.

Lemma processing_flag_has_an_upload_in_flight_witness :
  let w := run Sample.helpful start [FileSelected (Some Sample.fruitFile)] in
  isProcessing (pdfState (app w)) = true
  /\ status (pdfState (app w)) = Loading.
Proof.
  split; [reflexivity |].
  destruct (processing_flag_has_an_upload_in_flight Sample.helpful
              [FileSelected (Some Sample.fruitFile)] eq_refl) as (E & _).
  exact E.
Defined.

(** X10: every user message gets exactly one reply: in every state the
    session can reach, the number of user messages in the transcript is
    the number of assistant messages plus the number of chat calls in
    flight. *)
Theorem every_message_gets_one_reply (env : Env) (trace : list Event) :
  let w := run env start trace in
  messagesFrom user (chatHistory (app w))
  = (messagesFrom assistant (chatHistory (app w)) + inFlight isChatTask w)%nat.
Proof.
  exact (inv_replies _ (invariant_reachable env trace)).
Qed.

(** X11: in every state the session can reach, the document text is
    empty exactly when the page count is zero, a page without text still
    contributing its heading; and with no pages the transformations and
    the chat do nothing. *)
Theorem no_pages_no_ai (env : Env) (trace : list Event) :
  let w := run env start trace in
  let p := pdfState (app w) in
  (text p = "" <-> numPages p = 0%Z)
  /\ (numPages p = 0%Z ->
      (forall action, handleAction action w = w) /\ handleSendMessage w = w).
Proof.
  intros w p.
  destruct (inv_coherent _ (invariant_reachable env trace)) as [Hlen Htext].
  fold w in Hlen, Htext. fold p in Hlen, Htext.
  assert (Hiff : text p = "" <-> numPages p = 0%Z).
  { rewrite Htext, joinPages_empty_iff.
    split; intros H.
    - rewrite H in Hlen. simpl in Hlen. lia.
    - destruct (pageTexts p); [reflexivity | simpl in Hlen; lia]. }
  split; [exact Hiff |].
  intros Hzero. apply Hiff in Hzero. split.
  - intros action. unfold handleAction. fold p. now rewrite Hzero.
  - unfold handleSendMessage. fold p. rewrite Hzero. simpl.
    now rewrite orb_true_r.
Qed.

Lemma no_pages_no_ai_witness :
  let w := run Sample.helpful start [FileSelected (Some Sample.corruptFile); Settled 0] in
  numPages (pdfState (app w)) = 0%Z
  /\ handleAction Sample.summarize w = w
  /\ handleSendMessage w = w.
Proof.
  split; [reflexivity |].
  destruct (no_pages_no_ai Sample.helpful
              [FileSelected (Some Sample.corruptFile); Settled 0]) as (_ & H).
  destruct (H eq_refl) as (Haction & Hsend).
  split; [exact (Haction Sample.summarize) | exact Hsend].
Defined.

(** X12: without an API key, be it unset or empty, both service calls
    reject with "API Key is missing" whatever the provider would answer;
    a transformation then leaves the draft as it is, and a chat call is
    answered in the transcript by the fixed text of the handler. *)
Theorem missing_key_fails_both_calls (env : Env) (docText instruction context : string)
    (history : list ChatMessage) (w : World) :
  API_KEY env = None \/ API_KEY env = Some "" ->
  processDocumentAction env docText instruction context = Rejected "API Key is missing"
  /\ chatWithDocument env docText history instruction = Rejected "API Key is missing"
  /\ editedContent (app (resume env (AwaitAction docText instruction) w))
     = editedContent (app w)
  /\ chatHistory (app (resume env (AwaitChat docText history instruction) w))
     = (chatHistory (app w)
        ++ [mkChatMessage assistant "Sorry, I failed to process that."])%list.
Proof.
  intros Hkey.
  assert (Hclient : getAIClient env = Rejected "API Key is missing").
  { unfold getAIClient. destruct Hkey as [-> | ->]; reflexivity. }
  cbv [resume]. unfold processDocumentAction, chatWithDocument. rewrite Hclient.
  repeat split.
Qed.

Lemma missing_key_fails_both_calls_witness :
  (API_KEY Sample.emptyKey = None \/ API_KEY Sample.emptyKey = Some "")
  /\ chatWithDocument Sample.emptyKey "text" [] "hi" = Rejected "API Key is missing".
Proof.
  assert (H : API_KEY Sample.emptyKey = None \/ API_KEY Sample.emptyKey = Some "")
    by (right; reflexivity).
  split; [exact H |].
  destruct (missing_key_fails_both_calls Sample.emptyKey "text" "hi" "" [] start H)
    as (_ & E & _).
  exact E.
Defined.

(** X13: neither service call ever resolves with an empty text: an
    empty answer of the provider and a failure of the provider are both
    replaced by a text; and the only rejection is the missing API key. *)
Theorem service_results_are_never_empty (env : Env) (docText instruction context : string)
    (history : list ChatMessage) :
  match processDocumentAction env docText instruction context with
  | Resolved result => result <> ""
  | Rejected m => m = "API Key is missing"
  end
  /\ match chatWithDocument env docText history instruction with
     | Resolved reply => reply <> ""
     | Rejected m => m = "API Key is missing"
     end.
Proof.
  unfold processDocumentAction, chatWithDocument, getAIClient.
  destruct (API_KEY env) as [k |]; [| now split].
  destruct (JS.truthy k); [| now split].
  split.
  - destruct (generateContent env k _) as [[| c r] | msg]; simpl; discriminate.
  - destruct (sendMessage env k _) as [[| c r] | msg]; simpl; discriminate.
Qed.

(** X14: a page number typed in decimal is read back as that number, so
    typing the number of a page of the document into the page number
    field shows that page. *)
Theorem typed_page_number_is_shown (s : App) (n : nat) :
  JS.parseInt (JS.numberToString n) = JS.Int (Z.of_nat n)
  /\ ((1 <= Z.of_nat n <= numPages (pdfState s))%Z ->
      currentPage (pageInputChange (JS.numberToString n) s) = Z.of_nat n).
Proof.
  split; [apply parseInt_numberToString |].
  intros [H1 H2]. unfold pageInputChange. rewrite parseInt_numberToString.
  simpl. apply Z.leb_le in H1, H2. now rewrite H1, H2.
Qed.

Lemma typed_page_number_is_shown_witness :
  let s := app (run Sample.helpful start Sample.loadFruit) in
  (1 <= Z.of_nat 3 <= numPages (pdfState s))%Z
  /\ currentPage (pageInputChange (JS.numberToString 3) s) = 3%Z.
Proof.
  assert (H : (1 <= Z.of_nat 3
               <= numPages (pdfState (app (run Sample.helpful start Sample.loadFruit))))%Z)
    by (vm_compute; split; discriminate).
  split; [exact H |].
  exact (proj2 (typed_page_number_is_shown
                  (app (run Sample.helpful start Sample.loadFruit)) 3) H).
Defined.

(** X15: a search is idempotent: it always goes to the first page that
    matches, so repeating it neither moves on to a later match nor
    changes anything else. *)
Theorem search_is_idempotent (s : App) :
  handleSearch (handleSearch s) = handleSearch s.
Proof.
  unfold handleSearch at 2 3.
  destruct (negb (JS.truthy (JS.trim (searchQuery s)))) eqn:Hblank.
  - unfold handleSearch. now rewrite Hblank.
  - destruct (negb (JS.findIndex _ (pageTexts (pdfState s)) =? -1)%Z) eqn:Hfound.
    + unfold handleSearch. simpl. rewrite Hblank, Hfound. reflexivity.
    + unfold handleSearch. now rewrite Hblank, Hfound.
Qed.

(** X16: the case of the query does not matter: two queries that are
    not blank and differ only in the case of their letters lead to the
    same page. *)
Theorem search_ignores_case_of_query (s : App) (query1 query2 : string) :
  JS.toLowerCase query1 = JS.toLowerCase query2 ->
  JS.trim query1 <> "" ->
  JS.trim query2 <> "" ->
  currentPage (handleSearch (setSearchQuery query1 s))
  = currentPage (handleSearch (setSearchQuery query2 s)).
Proof.
  intros Hcase H1 H2. apply truthy_iff in H1, H2.
  unfold handleSearch. simpl. rewrite H1, H2, Hcase. simpl.
  destruct (negb _); reflexivity.
Qed.

Lemma search_ignores_case_of_query_witness :
  let s := app (run Sample.helpful start Sample.loadFruit) in
  JS.toLowerCase "CHERRY" = JS.toLowerCase "Cherry"
  /\ JS.trim "CHERRY" <> ""
  /\ JS.trim "Cherry" <> ""
  /\ currentPage (handleSearch (setSearchQuery "CHERRY" s)) = 3%Z
  /\ currentPage (handleSearch (setSearchQuery "Cherry" s)) = 3%Z.
Proof.
  assert (H1 : JS.trim "CHERRY" <> "") by (vm_compute; discriminate).
  assert (H2 : JS.trim "Cherry" <> "") by (vm_compute; discriminate).
  split; [reflexivity |]. split; [exact H1 |]. split; [exact H2 |].
  split; [reflexivity |].
  rewrite <- (search_ignores_case_of_query
                (app (run Sample.helpful start Sample.loadFruit))
                "CHERRY" "Cherry" eq_refl H1 H2).
  reflexivity.
Defined.

(** X17: what lies beyond the truncation point has no influence: two
    document texts that agree on their first 15,000 characters get the
    same result from a transformation, and two that agree on their first
    20,000 characters the same result from a chat call. *)
Theorem dropped_text_has_no_influence (env : Env) (doc1 doc2 instruction context : string)
    (history : list ChatMessage) :
  (JS.substring0 15000 doc1 = JS.substring0 15000 doc2 ->
   processDocumentAction env doc1 instruction context
   = processDocumentAction env doc2 instruction context)
  /\ (JS.substring0 20000 doc1 = JS.substring0 20000 doc2 ->
      chatWithDocument env doc1 history instruction
      = chatWithDocument env doc2 history instruction).
Proof.
  split; intros H.
  - unfold processDocumentAction, actionRequest. now rewrite H.
  - unfold chatWithDocument, chatRequest. now rewrite H.
Qed.

Lemma dropped_text_has_no_influence_witness :
  JS.substring0 15000 (Sample.filler 15000 " and one ending")
  = JS.substring0 15000 (Sample.filler 15000 " and another")
  /\ processDocumentAction Sample.helpful (Sample.filler 15000 " and one ending")
       "Summarize." ""
     = processDocumentAction Sample.helpful (Sample.filler 15000 " and another")
         "Summarize." "".
Proof.
  assert (H : JS.substring0 15000 (Sample.filler 15000 " and one ending")
              = JS.substring0 15000 (Sample.filler 15000 " and another"))
    by (vm_compute; reflexivity).
  split; [exact H |].
  exact (proj1 (dropped_text_has_no_influence Sample.helpful _ _ "Summarize." "" []) H).
Defined.

(** Apart from the file selection, the close button and the settling of
    a task, no event touches the document state. *)
Lemma pdfState_kept_by_view_events (env : Env) (w : World) (e : Event) :
  (forall files0, e <> FileSelected files0) ->
  e <> CloseClicked ->
  (forall i, e <> Settled i) ->
  pdfState (app (handle env e w)) = pdfState (app w).
Proof.
  intros Hfile Hclose Hsettled. destruct e; simpl; try reflexivity.
  - now destruct (Hfile files0).
  - now destruct Hclose.
  - unfold handleAction. destruct (negb _); reflexivity.
  - unfold pageInputChange. destruct (JS.inRange _ _ _); [| reflexivity].
    destruct (JS.parseInt value); reflexivity.
  - unfold handleSearch. destruct (negb _); [reflexivity |].
    destruct (negb _); reflexivity.
  - unfold handleSendMessage. destruct (_ || _); reflexivity.
  - now destruct (Hsettled i).
Qed.

(** X18: how the status of the session can change in one step: it
    becomes Loading only when a PDF file is selected in an Empty session,
    it becomes Empty only through the close button, and it becomes Ready
    or Failed only when a pending task settles. *)
Theorem status_changes_only_as_designed (env : Env) (w : World) (e : Event) :
  let before := status (pdfState (app w)) in
  let after := status (pdfState (app (step env w e))) in
  before <> after ->
  match after with
  | Loading =>
      before = Empty
      /\ exists f, e = FileSelected (Some f) /\ type f = "application/pdf"
  | Empty => e = CloseClicked
  | Ready | Failed => exists i, e = Settled i
  end.
Proof.
  intros before after. subst before after. unfold step.
  destruct (enabled (app w) e) eqn:Hen; [| intros H; now destruct H].
  destruct e;
    try (rewrite pdfState_kept_by_view_events by (try intros ?; discriminate);
         intros H; now destruct H).
  - (* file selected *)
    simpl in Hen. cbv [handle]. unfold handleFileUpload.
    assert (Hempty : status (pdfState (app w)) = Empty).
    { unfold status. destruct (file (pdfState (app w))); [discriminate | reflexivity]. }
    assert (Hfile : file (pdfState (app w)) = None).
    { destruct (file (pdfState (app w))); [discriminate | reflexivity]. }
    assert (Hrej : status (pdfState (app (update (setPdfState uploadRejected) w)))
                   = Empty).
    { unfold status. simpl. now rewrite Hfile. }
    destruct files0 as [f |].
    + destruct (negb (type f =? "application/pdf")) eqn:Htype.
      * rewrite Hrej, Hempty. intros H; now destruct H.
      * intros _. simpl. split; [exact Hempty |]. exists f. split; [reflexivity |].
        apply negb_false_iff in Htype. now apply String.eqb_eq.
    + rewrite Hrej, Hempty. intros H; now destruct H.
  - (* close *)
    intros _. reflexivity.
  - (* settled *)
    simpl. unfold settle.
    destruct (nth_error (pending w) i) as [t |]; [| intros H; now destruct H].
    destruct t as [f | f | docText actionPrompt | docText history userMessage];
      cbv [resume].
    + destruct (getDocument f); simpl.
      * intros H; now destruct H.
      * unfold status. simpl. destruct (file (pdfState (app w))); intros H.
        -- now exists i.
        -- now destruct H.
    + destruct (extractTextFromPDF f); unfold status; simpl;
        destruct (file (pdfState (app w))); intros H;
        try (now destruct H); try (now exists i).
      destruct (error (pdfState (app w))); now exists i.
    + destruct (processDocumentAction env docText actionPrompt ""); simpl;
        intros H; now destruct H.
    + destruct (chatWithDocument env docText history userMessage); simpl;
        intros H; now destruct H.
Qed.

Lemma status_changes_only_as_designed_witness :
  status (pdfState (app start))
  <> status (pdfState (app (step Sample.helpful start
                              (FileSelected (Some Sample.fruitFile)))))
  /\ exists f, FileSelected (Some Sample.fruitFile) = FileSelected (Some f)
               /\ type f = "application/pdf".
Proof.
  assert (H : status (pdfState (app start))
              <> status (pdfState (app (step Sample.helpful start
                                          (FileSelected (Some Sample.fruitFile))))))
    by (vm_compute; discriminate).
  split; [exact H |].
  pose proof (status_changes_only_as_designed Sample.helpful start
                (FileSelected (Some Sample.fruitFile)) H) as E.
  exact (proj2 E).
Defined.
